(** * Keyword filtering of a JSONL tweet corpus

    A shallow embedding of [filtering.py] (the sequential filter) and
    [filtering_parallel.py] (the worker-pool filter), followed by the
    properties of the matched-keyword normaliser, the dual-set matcher and
    the two writer loops.

    Python strings are sequences of Unicode code points; they are modelled
    as [list Z].  The interpreter's library functions the scripts call
    ([str.lower], [json.loads], [json.dumps], [ast.literal_eval], [str]) are
    not part of the repository: they are the fields of the class [PyLib],
    and every theorem holds for any implementation of them. *)

From Stdlib Require Import List ZArith Bool String Ascii Lia Permutation.
Import ListNotations.

Set Implicit Arguments.
Open Scope list_scope.

(* ================================================================== *)
(** ** Strings *)

Definition str := list Z.

Definition byte_val (a : ascii) : Z := Z.of_N (N_of_ascii a).

(** Code points of a UTF-8 encoded literal; only used to write the keyword
    tables and the examples readably. *)
Fixpoint decode_utf8 (bs : list Z) : str :=
  match bs with
  | [] => []
  | b0 :: r0 =>
    if (b0 <? 128)%Z then b0 :: decode_utf8 r0 else
    match r0 with
    | [] => [b0]
    | b1 :: r1 =>
      if (b0 <? 224)%Z
      then ((b0 mod 32) * 64 + b1 mod 64)%Z :: decode_utf8 r1 else
      match r1 with
      | [] => [b0; b1]
      | b2 :: r2 =>
        if (b0 <? 240)%Z
        then ((b0 mod 16) * 4096 + (b1 mod 64) * 64 + b2 mod 64)%Z
               :: decode_utf8 r2
        else
        match r2 with
        | [] => [b0; b1; b2]
        | b3 :: r3 =>
          ((b0 mod 8) * 262144 + (b1 mod 64) * 4096 + (b2 mod 64) * 64
           + b3 mod 64)%Z
            :: decode_utf8 r3
        end
      end
    end
  end.

Definition u (s : string) : str :=
  decode_utf8 (map byte_val (list_ascii_of_string s)).

Definition str_eqb (a b : str) : bool :=
  if list_eq_dec Z.eq_dec a b then true else false.

(** [x in lst] for a list of strings. *)
Definition list_contains (x : str) (lst : list str) : bool :=
  existsb (str_eqb x) lst.

(** [needle in hay] for two strings: [needle] occurs as a contiguous run. *)
Fixpoint starts_with (needle hay : str) : bool :=
  match needle, hay with
  | [], _ => true
  | _ :: _, [] => false
  | a :: n', b :: h' => (a =? b)%Z && starts_with n' h'
  end.

Fixpoint str_contains (needle hay : str) : bool :=
  starts_with needle hay ||
  match hay with
  | [] => false
  | _ :: h' => str_contains needle h'
  end.

(** [Py_UNICODE_ISSPACE]: what [str.strip()] removes and [str.split()]
    splits on. *)
Definition isspace (c : Z) : bool :=
  ((9 <=? c) && (c <=? 13) || (28 <=? c) && (c <=? 32)
   || (c =? 133) || (c =? 160) || (c =? 5760)
   || (8192 <=? c) && (c <=? 8202)
   || (c =? 8232) || (c =? 8233) || (c =? 8239) || (c =? 8287)
   || (c =? 12288))%Z.

(** [string.punctuation]. *)
Definition punctuation : str :=
  [33; 34; 35; 36; 37; 38; 39; 40; 41; 42; 43; 44; 45; 46; 47;
   58; 59; 60; 61; 62; 63; 64;
   91; 92; 93; 94; 95; 96;
   123; 124; 125; 126]%Z.

Definition char_in (chars : str) (c : Z) : bool :=
  existsb (Z.eqb c) chars.

Fixpoint lstrip (p : Z -> bool) (s : str) : str :=
  match s with
  | [] => []
  | c :: s' => if p c then lstrip p s' else s
  end.

Definition rstrip (p : Z -> bool) (s : str) : str :=
  rev (lstrip p (rev s)).

Definition strip_with (p : Z -> bool) (s : str) : str :=
  rstrip p (lstrip p s).

(** [s.strip()] *)
Definition str_strip (s : str) : str := strip_with isspace s.

(** [s.strip(chars)] *)
Definition str_strip_chars (chars s : str) : str :=
  strip_with (char_in chars) s.

(** [s.split()]: maximal runs of non-whitespace characters.  [word] holds
    the pending run, last character first. *)
Fixpoint split_from (word : str) (s : str) : list str :=
  match s with
  | [] => match word with [] => [] | _ => [rev word] end
  | c :: s' =>
    if isspace c
    then match word with
         | [] => split_from [] s'
         | _ => rev word :: split_from [] s'
         end
    else split_from (c :: word) s'
  end.

Definition str_split (s : str) : list str := split_from [] s.

Definition nonempty (s : str) : bool :=
  match s with [] => false | _ => true end.

(* ================================================================== *)
(** ** Values and exceptions *)

(** The values [json.loads] and [ast.literal_eval] produce.  Floats are
    never inspected; they carry their bit pattern. *)
#[warnings="-register-all"]
Inductive pyval : Type :=
| PNone
| PEllipsis
| PBool (b : bool)
| PInt (n : Z)
| PFloat (bits : Z)
| PComplex (re im : Z)
| PStr (s : str)
| PBytes (b : list Z)
| PList (l : list pyval)
| PTuple (l : list pyval)
| PSet (l : list pyval)
| PDict (d : list (pyval * pyval)).

Inductive exn : Type :=
| JSONDecodeError
| AttributeError
| TypeError
| ValueError
| SyntaxError
| RecursionError
| MemoryError
| UnicodeEncodeError.

Inductive result (A : Type) : Type :=
| Ok (a : A)
| Raise (e : exn).

Arguments Ok {A} a.
Arguments Raise {A} e.

Definition bind {A B} (r : result A) (k : A -> result B) : result B :=
  match r with
  | Ok a => k a
  | Raise e => Raise e
  end.

Notation "x <- r ;; k" := (bind r (fun x => k))
  (at level 61, r at next level, right associativity).

(** [try: body  except: handler] with a bare [except]. *)
Definition try_except {A} (body handler : result A) : result A :=
  match body with
  | Ok a => Ok a
  | Raise _ => handler
  end.

(** The library functions of the interpreter used by the scripts. *)
Class PyLib : Type := {
  (** [s.lower()] *)
  str_lower : str -> str;
  (** [json.loads(line)] *)
  json_loads : str -> result pyval;
  (** [ast.literal_eval(s)] *)
  literal_eval : str -> result pyval;
  (** [str(v)] for a value that is not itself a string; it can raise
      ([ValueError] for an integer beyond the digit limit) *)
  py_repr : pyval -> result str;
  (** [json.dumps(v, ensure_ascii=False)] for a value that is not a string *)
  json_encode : pyval -> str
}.

(** [str(v)] *)
Definition py_str `{PyLib} (v : pyval) : result str :=
  match v with
  | PStr s => Ok s
  | _ => py_repr v
  end.

(* ================================================================== *)
(** ** The normaliser (the same text in both scripts) *)

(** [t.strip().strip(string.punctuation)]: only [str] has both methods with
    these argument types; [bytes.strip] rejects a [str] argument, every other
    type has no [strip] attribute. *)
Definition clean_token (t : pyval) : result str :=
  match t with
  | PStr s => Ok (str_strip_chars punctuation (str_strip s))
  | PBytes _ => Raise TypeError
  | _ => Raise AttributeError
  end.

(** The [for t in token_list] loop, [cleaned] being the list built so far. *)
Fixpoint clean_loop (cleaned : list str) (token_list : list pyval)
  : result (list str) :=
  match token_list with
  | [] => Ok cleaned
  | t :: rest =>
    cleaned_token <- clean_token t ;;
    clean_loop (if nonempty cleaned_token
                then cleaned ++ [cleaned_token] else cleaned) rest
  end.

Definition _clean_tokens (token_list : list pyval) : result (list str) :=
  clean_loop [] token_list.

Definition safe_parse_matched_keywords `{PyLib} (matched_kw : pyval)
  : result (list str) :=
  match matched_kw with
  | PNone => Ok []
  | PList l => _clean_tokens l
  | PStr raw =>
    let s := str_strip raw in
    if nonempty s then
      try_except
        (parsed_value <- literal_eval s ;;
         match parsed_value with
         | PList l => _clean_tokens l
         | _ =>
           printed <- py_str parsed_value ;;
           _clean_tokens (map PStr (str_split printed))
         end)
        (_clean_tokens (map PStr (str_split s)))
    else Ok []
  | _ => Ok []
  end.

(* ================================================================== *)
(** ** Pieces of the interpreter both scripts use *)

(** [d.get(key, default)]; only a [dict] has the method. *)
Definition key_is (key : str) (kv : pyval * pyval) : bool :=
  match fst kv with
  | PStr k => str_eqb k key
  | _ => false
  end.

Definition dict_get (d : pyval) (key : str) (default : pyval) : result pyval :=
  match d with
  | PDict kvs =>
    match find (key_is key) kvs with
    | Some kv => Ok (snd kv)
    | None => Ok default
    end
  | _ => Raise AttributeError
  end.

(** [v.lower()] followed by [k in v] for [str] keys [k]. *)
Definition method_lower `{PyLib} (v : pyval) : result str :=
  match v with
  | PStr s => Ok (str_lower s)
  | PBytes _ => Raise TypeError
  | _ => Raise AttributeError
  end.

(** [any(k.lower() in matched_list for k in keywords)] *)
Definition any_in_list `{PyLib} (keywords : list str) (matched_list : list str)
  : bool :=
  existsb (fun k => list_contains (str_lower k) matched_list) keywords.

(** [any(k.lower() in tweet_txt for k in keywords)] *)
Definition any_in_text `{PyLib} (keywords : list str) (tweet_txt : str)
  : bool :=
  existsb (fun k => str_contains (str_lower k) tweet_txt) keywords.

(** [json.dumps(s, ensure_ascii=False)] for a string [s]: the text between
    double quotes, with quote, backslash and control characters escaped. *)
Definition hex_digit (d : Z) : Z :=
  if (d <? 10)%Z then (48 + d)%Z else (87 + d)%Z.

Definition escape_char (c : Z) : str :=
  if (c =? 34)%Z then [92; 34]%Z
  else if (c =? 92)%Z then [92; 92]%Z
  else if (c =? 8)%Z then [92; 98]%Z
  else if (c =? 12)%Z then [92; 102]%Z
  else if (c =? 10)%Z then [92; 110]%Z
  else if (c =? 13)%Z then [92; 114]%Z
  else if (c =? 9)%Z then [92; 116]%Z
  else if ((0 <=? c) && (c <? 32))%Z
       then [92; 117; 48; 48; hex_digit (c / 16); hex_digit (c mod 16)]%Z
  else [c].

Definition py_encode_basestring (s : str) : str :=
  34%Z :: flat_map escape_char s ++ [34%Z].

Definition json_dumps `{PyLib} (v : pyval) : str :=
  match v with
  | PStr s => py_encode_basestring s
  | _ => json_encode v
  end.

Definition newline : str := [10%Z].

(** [fout.write(text)] on a file opened with [encoding="utf-8"]: the text
    is encoded when it is written, and a surrogate code point (which
    [json.loads] produces from an escape such as [\ud800]) cannot be
    encoded. *)
Definition is_surrogate (c : Z) : bool :=
  ((55296 <=? c) && (c <=? 57343))%Z.

Definition utf8_encodable (text : str) : bool :=
  forallb (fun c => negb (is_surrogate c)) text.

Definition file_write (written : list str) (text : str) : result (list str) :=
  if utf8_encodable text then Ok (written ++ [text])
  else Raise UnicodeEncodeError.

(** The module-level variables of a run: the two counters, the progress
    bar, and the arguments of the [fout.write] calls so far. *)
Record state : Type := mkState {
  total_tweets : nat;
  kept_tweets : nat;
  pbar : nat;
  fout : list str
}.

Definition initial : state := mkState 0 0 0 [].

(** The two numbers printed after the loop. *)
Definition summary (st : state) : nat * nat :=
  (total_tweets st, kept_tweets st).

(* ================================================================== *)
(** ** filtering.py *)

Module Filtering.

Definition kurdish_keywords : list str :=
  [u "kürt"; u "kürt"; u "kürtler"; u "hadep"; u "hdp"; u "bdp"; u "ysp";
   u "dem"; u "demokratik islam kongresi"; u "sivil cuma"; u "özerklik";
   u "barzani"; u "talabani"; u "rojava"; u "kobane"; u "kobani"; u "kdp";
   u "ynk"; u "ypg"; u "terörist"; u "ermeni"; u "süryani"; u "kürt sorunu";
   u "selahattin demirtaş"; u "apo"; u "selo"; u "öcalan"; u "kdp";
   u "kurd"; u "Kurd"; u "kurdish"; u "pkk"; u "kck"; u "kürdistan";
   u "bölücülük"; u "şeyh sait"; u "şeyh said"; u "terör örgütü";
   u "terör propogandası"; u "kandil"; u "selo"; u "vatansız"].

Definition islam_keywords : list str :=
  [u "islam"; u "islam"; u "müslüman"; u "musluman"; u "din"; u "dinsiz";
   u "dindar"; u "islamcı"; u "müslümanlar"; u "ümmet"; u "seküler";
   u "şeriat"; u "müslümanız"; u "dinimiz bir"; u "dinimizden uzak";
   u "hepimiz müslüman"; u "gerçek müslüman"; u "gerçek islam";
   u "islamı satanlar"; u "islam düşmanı"; u "kafir"; u "dinimizden";
   u "allahsız"; u "ateist"; u "şeyh"; u "molla"].

Section Loop.
Context `{PyLib}.

(** The token-list test on the normalised, lowercased list. *)
Definition token_test (matched_list : list str) : bool :=
  let kurdish_match := any_in_list kurdish_keywords matched_list in
  let islam_match := any_in_list islam_keywords matched_list in
  kurdish_match && islam_match.

(** One iteration of [for line in fin]. *)
Definition loop_body (st : state) (line : str) : result state :=
  let st := mkState (S (total_tweets st)) (kept_tweets st)
                    (S (pbar st)) (fout st) in
  match json_loads line with
  | Raise JSONDecodeError => Ok st
  | Raise e => Raise e
  | Ok tweet =>
    matched_raw <- dict_get tweet (u "matched_keywords") PNone ;;
    matched_list <- safe_parse_matched_keywords matched_raw ;;
    let matched_list := map str_lower matched_list in
    if token_test matched_list
    then
      written <- file_write (fout st) (json_dumps tweet ++ newline) ;;
      Ok (mkState (total_tweets st) (S (kept_tweets st)) (pbar st) written)
    else Ok st
  end.

Fixpoint main_loop (st : state) (fin : list str) : result state :=
  match fin with
  | [] => Ok st
  | line :: rest => st' <- loop_body st line ;; main_loop st' rest
  end.

(** The whole script: the loop from the initial counters, then the two
    [print] calls. *)
Definition run (fin : list str) : result (nat * nat * list str) :=
  st <- main_loop initial fin ;;
  Ok (summary st, fout st).

End Loop.
End Filtering.

(* ================================================================== *)
(** ** filtering_parallel.py *)

Module FilteringParallel.

Definition kurdish_keywords : list str :=
  [u "kürt"; u "kürt"; u "kürtler"; u "hadep"; u "hdp"; u "bdp"; u "ysp";
   u "dem"; u "demokratik islam kongresi"; u "sivil cuma"; u "özerklik";
   u "barzani"; u "talabani"; u "rojava"; u "kobane"; u "kobani"; u "kdp";
   u "ynk"; u "ypg"; u "terörist"; u "ermeni"; u "süryani"; u "kürt sorunu";
   u "selahattin demirtaş"; u "apo"; u "selo"; u "öcalan"; u "kdp";
   u "kurd"; u "Kurd"; u "kurdish"; u "pkk"; u "kck"; u "kürdistan";
   u "bölücülük"; u "şeyh sait"; u "şeyh said"; u "terör örgütü";
   u "terör propogandası"; u "terör" ++ u "kandil"; u "selo"; u "vatansız";
   u "kürdistanlı"; u "kürdistan"; u "kobani"; u "direnişi" ++ u "rojava";
   u "devrimi" ++ u "terörle"; u "mücadele"; u "kürd"; u "kürtler";
   u "terörizm"; u "ilişkisi"; u "kürt siyaseti"; u "kürdistan"].

Definition islam_keywords : list str :=
  [u "islam"; u "islam"; u "müslüman"; u "musluman"; u "din"; u "dinsiz";
   u "dindar"; u "islamcı"; u "müslümanlar"; u "ümmet"; u "seküler";
   u "şeriat"; u "müslümanız"; u "dinimiz bir"; u "dinimizden uzak";
   u "hepimiz müslüman"; u "gerçek müslüman"; u "gerçek islam";
   u "islamı satanlar"; u "islam düşmanı"; u "kafir"; u "dinimizden";
   u "allahsız"; u "ateist"; u "şeyh"; u "molla"; u "islam"; u "İslam";
   u "moslem"; u "müslüman"; u "musluman"; u "muselman"; u "müslüm";
   u "din"; u "dinn"; u "dinim"; u "dinsiz"; u "dinsizz"; u "dindar";
   u "dindarr"; u "islamcı"; u "islamcıl"; u "müslümanlar"; u "müslimanlar";
   u "ümmet"; u "ümmett"; u "ümme"; u "seküler"; u "sekuler"; u "secular";
   u "şeriat"; u "şeriaat"; u "müslümanız"; u "müslümünüz"; u "dinimiz bir";
   u "dinimizden uzak"; u "hepimiz müslüman"; u "hepimiz musluman";
   u "gerçek müslüman"; u "gerçek islam"; u "islamı satanlar";
   u "islam düşmanı"; u "kafir"; u "kafer"; u "dinimizden"; u "allahsız";
   u "allahsız"; u "ateist"; u "ateıst"; u "şeyh"; u "şeyyh"; u "molla";
   u "mollaa"; u "imam"; u "hoca"; u "hocaa"; u "kuran"; u "kur'an";
   u "quran"; u "peygamber"; u "peygamaber"; u "pbuh"; u "sav"; u "allah";
   u "alllah"; u "allaaah"; u "cc"; u "c.c."; u "inşallah"; u "inş";
   u "maşallah"; u "maş"; u "mashallah"].

(** The dictionary a worker returns: [{"pass": True, "line": line}] or
    [{"pass": False}]. *)
Inductive linedct : Type :=
| Pass (line : str)
| NoPass.

Section Workers.
Context `{PyLib}.

Definition token_test (matched_list : list str) : bool :=
  let kurdish_match := any_in_list kurdish_keywords matched_list in
  let islam_match := any_in_list islam_keywords matched_list in
  kurdish_match && islam_match.

Definition text_test (tweet_txt : str) : bool :=
  let kurdish_txt_match := any_in_text kurdish_keywords tweet_txt in
  let islam_txt_match := any_in_text islam_keywords tweet_txt in
  kurdish_txt_match && islam_txt_match.

Definition check_tweet (line : str) : result linedct :=
  match json_loads line with
  | Raise JSONDecodeError => Ok NoPass
  | Raise e => Raise e
  | Ok tweet =>
    matched_raw <- dict_get tweet (u "matched_keywords") PNone ;;
    matched_list <- safe_parse_matched_keywords matched_raw ;;
    let matched_list := map str_lower matched_list in
    if token_test matched_list then Ok (Pass line) else
    tweet_text <- dict_get tweet (u "tweet_text") (PStr []) ;;
    tweet_txt <- method_lower tweet_text ;;
    if text_test tweet_txt then Ok (Pass line) else Ok NoPass
  end.

(** One iteration of [for linedct in p.imap_unordered(check_tweet, fin)]:
    the iterator hands over a worker's result, or re-raises what the worker
    raised.  The text written here is the quoted input line; a line read
    from a UTF-8 file holds no surrogate and quoting adds none, so these
    writes are always encodable. *)
Definition writer_body (st : state) (arrived : result linedct) : result state :=
  linedct <- arrived ;;
  let st := mkState (total_tweets st) (S (kept_tweets st))
                    (S (pbar st)) (fout st) in
  match linedct with
  | NoPass => Ok st
  | Pass line =>
    Ok (mkState (total_tweets st) (S (kept_tweets st)) (pbar st)
                (fout st ++ [json_dumps (PStr line); newline]))
  end.

Fixpoint writer_loop (st : state) (arrivals : list (result linedct))
  : result state :=
  match arrivals with
  | [] => Ok st
  | a :: rest => st' <- writer_body st a ;; writer_loop st' rest
  end.

(** [imap_unordered] yields the workers' results in any order. *)
Definition arrival_order (fin : list str) (arrivals : list (result linedct))
  : Prop :=
  Permutation arrivals (map check_tweet fin).

End Workers.
End FilteringParallel.

(* ================================================================== *)
(** ** A table-driven library for running the definitions

    [demo_lib] decodes exactly the literals and lines listed below and
    lowercases ASCII letters; it serves to evaluate the scripts on the
    documented examples. *)

Definition ascii_lower (s : str) : str :=
  map (fun c => if ((65 <=? c) && (c <=? 90))%Z then (c + 32)%Z else c) s.

(** Like [u], with a backquote standing for a double quote. *)
Definition uq (s : string) : str :=
  map (fun c => if (c =? 96)%Z then 34%Z else c) (u s).

Definition lookup_in (tbl : list (str * pyval)) (e : exn) (s : str)
  : result pyval :=
  match find (fun row => str_eqb (fst row) s) tbl with
  | Some row => Ok (snd row)
  | None => Raise e
  end.

Definition demo_literals : list (str * pyval) :=
  [(u "['Kürt,', 'PKK,']", PList [PStr (u "Kürt,"); PStr (u "PKK,")]);
   (u "['pkk','islam']", PList [PStr (u "pkk"); PStr (u "islam")]);
   (u "['pkk']", PList [PStr (u "pkk")]);
   (u "[1, 2]", PList [PInt 1; PInt 2]);
   (u "'Kürt,'", PStr (u "Kürt,"));
   (u "[', a']", PList [PStr (u ", a")])].

Definition line_both : str :=
  uq "{`matched_keywords`: `['pkk','islam']`}" ++ newline.
Definition line_one : str :=
  uq "{`matched_keywords`: `['pkk']`}" ++ newline.
Definition line_text_only : str :=
  uq "{`tweet_text`: `PKK ve Islam`}" ++ newline.
Definition line_numbers : str :=
  uq "{`matched_keywords`: [1]}" ++ newline.
Definition line_broken : str :=
  uq "{`matched_keywords`: " ++ newline.

Definition tweet_both : pyval :=
  PDict [(PStr (u "matched_keywords"), PStr (u "['pkk','islam']"))].
Definition tweet_one : pyval :=
  PDict [(PStr (u "matched_keywords"), PStr (u "['pkk']"))].
Definition tweet_text_only : pyval :=
  PDict [(PStr (u "tweet_text"), PStr (u "PKK ve Islam"))].
Definition tweet_numbers : pyval :=
  PDict [(PStr (u "matched_keywords"), PList [PInt 1])].

Definition demo_lines : list (str * pyval) :=
  [(line_both, tweet_both); (line_one, tweet_one);
   (line_text_only, tweet_text_only); (line_numbers, tweet_numbers)].

Definition demo_lib : PyLib := {|
  str_lower := ascii_lower;
  json_loads := lookup_in demo_lines JSONDecodeError;
  literal_eval := lookup_in demo_literals SyntaxError;
  py_repr := fun _ => Ok (u "<value>");
  json_encode := fun _ => u "<record>"
|}.

(* ================================================================== *)
(** ** Notions used in the statements *)

(** [s] does not begin with a character satisfying [p]. *)
Definition head_free (p : Z -> bool) (s : str) : Prop :=
  match s with
  | [] => True
  | c :: _ => p c = false
  end.

(** [s] neither begins nor ends with a character satisfying [p]. *)
Definition ends_free (p : Z -> bool) (s : str) : Prop :=
  head_free p s /\ head_free p (rev s).

(** Every word [s.split()] yields is non-empty and free of whitespace. *)
Definition is_word (w : str) : Prop :=
  nonempty w = true /\ Forall (fun c => isspace c = false) w.

(** A token cleaned as [_clean_tokens] cleans it, and a list of tokens
    cleaned with the empty results dropped. *)
Definition clean_str (t : str) : str :=
  str_strip_chars punctuation (str_strip t).

Definition clean_strs (l : list str) : list str :=
  filter nonempty (map clean_str l).

Definition is_str (v : pyval) : bool :=
  match v with PStr _ => true | _ => false end.

(** Every token of a cleaned list is non-empty and has no punctuation at
    either end. *)
Definition is_clean (t : str) : Prop :=
  nonempty t = true /\ ends_free (char_in punctuation) t.

(** [needle] occurs in [hay] as a contiguous run. *)
Definition is_substring (needle hay : str) : Prop :=
  exists pre suf, hay = pre ++ needle ++ suf.

Section Matcher.
Context `{PyLib}.

(** Some keyword, lowercased, is a member of the lowercased token list. *)
Definition matches_tokens (keywords toks : list str) : Prop :=
  exists k, In k keywords /\ In (str_lower k) (map str_lower toks).

(** Some keyword, lowercased, is a substring of the lowercased text. *)
Definition matches_text (keywords : list str) (text : str) : Prop :=
  exists k, In k keywords /\ is_substring (str_lower k) (str_lower text).

End Matcher.

(** The counters after a line that was read and not written. *)
Definition count_line (st : state) : state :=
  mkState (S (total_tweets st)) (kept_tweets st) (S (pbar st)) (fout st).

Definition is_pass (r : FilteringParallel.linedct) : bool :=
  match r with
  | FilteringParallel.Pass _ => true
  | FilteringParallel.NoPass => false
  end.

(** The [fout.write] arguments the parallel writer issues for a sequence
    of worker results. *)
Definition written `{PyLib} (results : list FilteringParallel.linedct)
  : list str :=
  flat_map (fun r => match r with
                     | FilteringParallel.Pass line =>
                       [json_dumps (PStr line); newline]
                     | FilteringParallel.NoPass => []
                     end) results.

(** The lines of the results the workers passed, in order of arrival. *)
Definition passed (results : list FilteringParallel.linedct) : list str :=
  flat_map (fun r => match r with
                     | FilteringParallel.Pass line => [line]
                     | FilteringParallel.NoPass => []
                     end) results.

(** What the output file holds: the written pieces one after the other. *)
Definition file_text (st : state) : str := List.concat (fout st).

(** What one input line adds to the output of the sequential filter. *)
Definition sequential_output `{PyLib} (line : str) : list str :=
  match Filtering.loop_body initial line with
  | Ok st => fout st
  | Raise _ => []
  end.

(** Whether the sequential filter gets through a line. *)
Definition line_completes `{PyLib} (line : str) : bool :=
  match Filtering.loop_body initial line with
  | Ok _ => true
  | Raise _ => false
  end.

(** The lines a sequential run handles before it ends: all of them, or
    those before the first line that raises. *)
Fixpoint processed `{PyLib} (fin : list str) : list str :=
  match fin with
  | [] => []
  | line :: rest =>
    if line_completes line then line :: processed rest else []
  end.

(** What the sequential script has written when it ends, at the end of the
    input or by an exception; the iteration that raises writes nothing. *)
Fixpoint sequential_file `{PyLib} (st : state) (fin : list str) : list str :=
  match fin with
  | [] => fout st
  | line :: rest =>
    match Filtering.loop_body st line with
    | Ok st' => sequential_file st' rest
    | Raise _ => fout st
    end
  end.

(** Keyword fields that hold nothing to clean: anything that is neither a
    list nor a string, the empty list, and a string of whitespace only. *)
Definition blank_field (raw : pyval) : Prop :=
  match raw with
  | PStr s => Forall (fun c => isspace c = true) s
  | PList l => l = []
  | _ => True
  end.

(** More lines for the table-driven library: a JSON array, a record whose
    text is [null], a record whose keyword field is blank. *)
Definition line_array : str := u "[1, 2]" ++ newline.
Definition line_null_text : str := uq "{`tweet_text`: null}" ++ newline.
Definition line_blank : str := uq "{`matched_keywords`: `  `}" ++ newline.

Definition tweet_null_text : pyval :=
  PDict [(PStr (u "tweet_text"), PNone)].
Definition tweet_blank : pyval :=
  PDict [(PStr (u "matched_keywords"), PStr (u "  "))].

Definition edge_lines : list (str * pyval) :=
  (line_array, PList [PInt 1; PInt 2])
    :: (line_null_text, tweet_null_text)
    :: (line_blank, tweet_blank)
    :: demo_lines.

Definition edge_lib : PyLib := {|
  str_lower := ascii_lower;
  json_loads := lookup_in edge_lines JSONDecodeError;
  literal_eval := lookup_in demo_literals SyntaxError;
  py_repr := fun _ => Ok (u "<value>");
  json_encode := fun _ => u "<record>"
|}.

(** Whether a run got through its input. *)
Definition is_ok_run (r : result state) : bool :=
  match r with Ok _ => true | Raise _ => false end.

(** A library that also decodes two literals whose value is not a list:
    a pair of strings, printed as Python prints a tuple, and a hexadecimal
    integer of 4000 digits, which [str] refuses to print in decimal (the
    limit is 4300 decimal digits). *)
Definition literal_pair : str := u "'a b', 'c'".
Definition value_pair : pyval := PTuple [PStr (u "a b"); PStr (u "c")].

Definition literal_big : str := u "0x" ++ repeat 102%Z 4000.
Definition value_big : pyval := PInt (16 ^ 4000 - 1)%Z.

Definition printing_lib : PyLib := {|
  str_lower := ascii_lower;
  json_loads := lookup_in demo_lines JSONDecodeError;
  literal_eval :=
    lookup_in ((literal_pair, value_pair) :: (literal_big, value_big)
                 :: demo_literals) SyntaxError;
  py_repr := fun v =>
    match v with
    | PTuple _ => Ok (u "('a b', 'c')")
    | PInt n => if (10 ^ 4300 <=? Z.abs n)%Z then Raise ValueError
                else Ok (u "<int>")
    | _ => Ok (u "<value>")
    end;
  json_encode := fun _ => u "<record>"
|}.

(** A library that also decodes a record holding a lone surrogate (the
    escape [\ud83d] without its second half) and dumps a record with its
    text as it is. *)
Definition line_surrogate : str :=
  uq "{`matched_keywords`: [`pkk`, `islam`], `tweet_text`: `\ud83d`}"
     ++ newline.

Definition tweet_surrogate : pyval :=
  PDict [(PStr (u "matched_keywords"),
          PList [PStr (u "pkk"); PStr (u "islam")]);
         (PStr (u "tweet_text"), PStr [55357%Z])].

Definition surrogate_lib : PyLib := {|
  str_lower := ascii_lower;
  json_loads :=
    lookup_in ((line_surrogate, tweet_surrogate) :: demo_lines)
              JSONDecodeError;
  literal_eval := lookup_in demo_literals SyntaxError;
  py_repr := fun _ => Ok (u "<value>");
  json_encode := fun v =>
    match dict_get v (u "tweet_text") (PStr []) with
    | Ok (PStr text) => uq "{`tweet_text`: `" ++ text ++ uq "`}"
    | _ => u "<record>"
    end
|}.

(* ================================================================== *)
(** ** Equality and membership of strings *)

Lemma str_eqb_eq (a b : str) : str_eqb a b = true <-> a = b.
Proof.
  unfold str_eqb. destruct (list_eq_dec Z.eq_dec a b); split; congruence.
Qed.

Lemma list_contains_In x lst : list_contains x lst = true <-> In x lst.
Proof.
  unfold list_contains. rewrite existsb_exists. split.
  - intros [y [Hy He]]. apply str_eqb_eq in He. now subst.
  - intros H. exists x. split; [assumption | now apply str_eqb_eq].
Qed.

(* ================================================================== *)
(** ** Stripping and splitting *)

Lemma lstrip_split (p : Z -> bool) (s : str) :
  exists pre, s = pre ++ lstrip p s /\ Forall (fun c => p c = true) pre.
Proof.
  induction s as [|c s IH]; simpl.
  - exists []. split; [reflexivity | constructor].
  - destruct (p c) eqn:E.
    + destruct IH as [pre [Hs Hp]]. exists (c :: pre). split.
      * simpl. now rewrite <- Hs.
      * now constructor.
    + exists []. split; [reflexivity | constructor].
Qed.

Lemma lstrip_head_free (p : Z -> bool) (s : str) : head_free p (lstrip p s).
Proof.
  induction s as [|c s IH]; simpl; [exact I|].
  destruct (p c) eqn:E; [assumption | simpl; assumption].
Qed.

Lemma lstrip_fixed (p : Z -> bool) (s : str) :
  head_free p s -> lstrip p s = s.
Proof.
  destruct s as [|c s]; simpl; [reflexivity|]. intros ->. reflexivity.
Qed.

Lemma rstrip_split (p : Z -> bool) (s : str) :
  exists suf, s = rstrip p s ++ suf /\ Forall (fun c => p c = true) suf.
Proof.
  unfold rstrip. destruct (lstrip_split p (rev s)) as [pre [Hs Hp]].
  exists (rev pre). split.
  - rewrite <- rev_app_distr, <- Hs. now rewrite rev_involutive.
  - now apply Forall_rev.
Qed.

Lemma rstrip_tail_free (p : Z -> bool) (s : str) :
  head_free p (rev (rstrip p s)).
Proof.
  unfold rstrip. rewrite rev_involutive. apply lstrip_head_free.
Qed.

Lemma rstrip_fixed (p : Z -> bool) (s : str) :
  head_free p (rev s) -> rstrip p s = s.
Proof.
  intros Hf. unfold rstrip. rewrite lstrip_fixed by assumption.
  apply rev_involutive.
Qed.

Lemma head_free_prefix (p : Z -> bool) (a b : str) :
  head_free p (a ++ b) -> head_free p a.
Proof.
  destruct a; simpl; [intros _; exact I | trivial].
Qed.

Lemma strip_with_ends_free (p : Z -> bool) (s : str) :
  ends_free p (strip_with p s).
Proof.
  unfold strip_with. split.
  - destruct (rstrip_split p (lstrip p s)) as [suf [Hs _]].
    apply head_free_prefix with (b := suf). rewrite <- Hs.
    apply lstrip_head_free.
  - apply rstrip_tail_free.
Qed.

Lemma strip_with_fixed (p : Z -> bool) (s : str) :
  ends_free p s -> strip_with p s = s.
Proof.
  intros [Hh Ht]. unfold strip_with.
  rewrite (lstrip_fixed p s Hh). now apply rstrip_fixed.
Qed.

Lemma strip_with_idempotent (p : Z -> bool) (s : str) :
  strip_with p (strip_with p s) = strip_with p s.
Proof.
  apply strip_with_fixed, strip_with_ends_free.
Qed.

(** What a strip removes: a run of [p]-characters at each end. *)
Lemma strip_with_split (p : Z -> bool) (s : str) :
  exists pre suf,
    s = pre ++ strip_with p s ++ suf
    /\ Forall (fun c => p c = true) pre
    /\ Forall (fun c => p c = true) suf.
Proof.
  destruct (lstrip_split p s) as [pre [Hs Hp]].
  destruct (rstrip_split p (lstrip p s)) as [suf [Hr Hq]].
  exists pre, suf. unfold strip_with. split; [|split; assumption].
  rewrite <- Hr. exact Hs.
Qed.

Lemma lstrip_Forall (P : Z -> Prop) (p : Z -> bool) (s : str) :
  Forall P s -> Forall P (lstrip p s).
Proof.
  induction 1 as [|c s Hc Hs IH]; simpl; [constructor|].
  destruct (p c); [assumption | now constructor].
Qed.

Lemma strip_with_Forall (P : Z -> Prop) (p : Z -> bool) (s : str) :
  Forall P s -> Forall P (strip_with p s).
Proof.
  intros Hs. unfold strip_with, rstrip.
  apply Forall_rev, lstrip_Forall, Forall_rev, lstrip_Forall, Hs.
Qed.

Lemma head_free_of_Forall (p : Z -> bool) (s : str) :
  Forall (fun c => p c = false) s -> head_free p s.
Proof.
  destruct 1; simpl; [exact I | assumption].
Qed.

Lemma ends_free_of_Forall (p : Z -> bool) (s : str) :
  Forall (fun c => p c = false) s -> ends_free p s.
Proof.
  intros Hs. split; apply head_free_of_Forall; [assumption|].
  now apply Forall_rev.
Qed.

Lemma split_from_words (s word : str) :
  Forall (fun c => isspace c = false) word ->
  Forall is_word (split_from word s).
Proof.
  revert word. induction s as [|c s IH]; intros word Hw; simpl.
  - destruct word as [|a w]; [constructor|].
    constructor; [|constructor]. split.
    + simpl. destruct (rev w); reflexivity.
    + now apply Forall_rev.
  - destruct (isspace c) eqn:E.
    + destruct word as [|a w]; [apply IH; constructor|].
      constructor; [|apply IH; constructor]. split.
      * simpl. destruct (rev w); reflexivity.
      * now apply Forall_rev.
    + apply IH. now constructor.
Qed.

Lemma str_split_words (s : str) : Forall is_word (str_split s).
Proof.
  apply split_from_words. constructor.
Qed.

(* ================================================================== *)
(** ** Cleaning a list of tokens *)

Lemma clean_loop_strs (l : list str) (cleaned : list str) :
  clean_loop cleaned (map PStr l) = Ok (cleaned ++ clean_strs l).
Proof.
  revert cleaned. induction l as [|t l IH]; intros cleaned; simpl.
  - now rewrite app_nil_r.
  - rewrite IH. unfold clean_strs. simpl. fold (clean_str t).
    destruct (nonempty (clean_str t)); [|reflexivity].
    now rewrite <- app_assoc.
Qed.

Lemma _clean_tokens_strs (l : list str) :
  _clean_tokens (map PStr l) = Ok (clean_strs l).
Proof.
  unfold _clean_tokens. now rewrite clean_loop_strs.
Qed.

Lemma clean_loop_ok_inv (l : list pyval) (cleaned r : list str) :
  clean_loop cleaned l = Ok r -> exists ss, l = map PStr ss.
Proof.
  revert cleaned. induction l as [|t l IH]; intros cleaned Hr.
  - now exists [].
  - simpl in Hr. destruct t; simpl in Hr; try discriminate.
    apply IH in Hr. destruct Hr as [ss ->]. now exists (s :: ss).
Qed.

Lemma _clean_tokens_ok_inv (l : list pyval) (toks : list str) :
  _clean_tokens l = Ok toks ->
  exists ss, l = map PStr ss /\ toks = clean_strs ss.
Proof.
  intros Hr. destruct (clean_loop_ok_inv _ _ Hr) as [ss ->].
  exists ss. split; [reflexivity|].
  rewrite _clean_tokens_strs in Hr. congruence.
Qed.

Lemma clean_loop_raises (l : list pyval) (cleaned : list str) :
  existsb (fun v => negb (is_str v)) l = true ->
  exists e, clean_loop cleaned l = Raise e.
Proof.
  revert cleaned. induction l as [|t l IH]; intros cleaned Hx;
    [discriminate|].
  simpl in Hx. destruct t; simpl in *;
    try (eexists; reflexivity).
  now apply IH.
Qed.

(** The string branch, with the [try] block evaluated. *)
Lemma safe_parse_str `{PyLib} (raw : str) :
  safe_parse_matched_keywords (PStr raw) =
  if nonempty (str_strip raw) then
    match literal_eval (str_strip raw) with
    | Ok (PList l) =>
      match _clean_tokens l with
      | Ok toks => Ok toks
      | Raise _ => Ok (clean_strs (str_split (str_strip raw)))
      end
    | Ok v =>
      match py_str v with
      | Ok printed => Ok (clean_strs (str_split printed))
      | Raise _ => Ok (clean_strs (str_split (str_strip raw)))
      end
    | Raise _ => Ok (clean_strs (str_split (str_strip raw)))
    end
  else Ok [].
Proof.
  unfold safe_parse_matched_keywords.
  destruct (nonempty (str_strip raw)); [|reflexivity].
  destruct (literal_eval (str_strip raw)) as [v|e]; simpl;
    [|apply _clean_tokens_strs].
  destruct v; simpl;
    try (destruct (py_repr _); simpl);
    rewrite ?_clean_tokens_strs; reflexivity.
Qed.

Lemma clean_str_ends_free (t : str) :
  ends_free (char_in punctuation) (clean_str t).
Proof.
  apply strip_with_ends_free.
Qed.

Lemma clean_strs_clean (l : list str) : Forall is_clean (clean_strs l).
Proof.
  apply Forall_forall. intros t Ht. unfold clean_strs in Ht.
  apply filter_In in Ht. destruct Ht as [Hin Hne].
  apply in_map_iff in Hin. destruct Hin as [t0 [<- _]].
  split; [assumption | apply clean_str_ends_free].
Qed.

(** Where the tokens of a string-valued field come from: the elements of
    the decoded list, or the words of some string. *)
Lemma safe_parse_str_shape `{PyLib} (raw : str) (toks : list str) :
  safe_parse_matched_keywords (PStr raw) = Ok toks ->
  (exists l, literal_eval (str_strip raw) = Ok (PList l)
             /\ _clean_tokens l = Ok toks)
  \/ (exists x, toks = clean_strs (str_split x)).
Proof.
  intros Hraw. rewrite safe_parse_str in Hraw.
  destruct (nonempty (str_strip raw));
    [|injection Hraw as <-; right; now exists []].
  destruct (literal_eval (str_strip raw)) as [v|e] eqn:El;
    [|injection Hraw as <-; right; eexists; reflexivity].
  destruct v; cbn beta iota in Hraw;
    try (destruct (py_str _); injection Hraw as <-;
         right; eexists; reflexivity).
  destruct (_clean_tokens l) as [t|e] eqn:E; injection Hraw as <-.
  - left. exists l. split; [reflexivity | exact E].
  - right. eexists; reflexivity.
Qed.

Lemma safe_parse_clean `{PyLib} (v : pyval) (toks : list str) :
  safe_parse_matched_keywords v = Ok toks -> Forall is_clean toks.
Proof.
  destruct v; try (simpl; intros [= <-]; constructor).
  - intros Hraw. apply safe_parse_str_shape in Hraw.
    destruct Hraw as [[l [_ Hc]] | [x ->]]; [|apply clean_strs_clean].
    apply _clean_tokens_ok_inv in Hc.
    destruct Hc as [ss [_ ->]]. apply clean_strs_clean.
  - simpl. intros Hc. apply _clean_tokens_ok_inv in Hc.
    destruct Hc as [ss [_ ->]]. apply clean_strs_clean.
Qed.

(** Cleaning leaves a clean token alone, provided it has no whitespace at
    either end. *)
Lemma clean_str_fixed (t : str) :
  is_clean t -> str_strip t = t -> clean_str t = t.
Proof.
  intros [_ He] Hs. unfold clean_str. rewrite Hs.
  now apply strip_with_fixed.
Qed.

Lemma clean_strs_fixed (toks : list str) :
  Forall is_clean toks ->
  Forall (fun t => str_strip t = t) toks ->
  clean_strs toks = toks.
Proof.
  induction 1 as [|t toks Ht Hts IH]; intros Hs; [reflexivity|].
  inversion Hs as [|? ? Hst Hsts]; subst.
  unfold clean_strs. simpl. rewrite (clean_str_fixed Ht Hst).
  destruct Ht as [-> _]. f_equal. now apply IH.
Qed.

Lemma word_strip_fixed (w : str) :
  Forall (fun c => isspace c = false) w -> str_strip w = w.
Proof.
  intros Hw. apply strip_with_fixed. now apply ends_free_of_Forall.
Qed.

Lemma clean_strs_of_words (ws : list str) :
  Forall is_word ws ->
  Forall (fun t => str_strip t = t) (clean_strs ws).
Proof.
  intros Hws. apply Forall_forall. intros t Ht. unfold clean_strs in Ht.
  apply filter_In in Ht. destruct Ht as [Hin _].
  apply in_map_iff in Hin. destruct Hin as [w [<- Hw]].
  rewrite Forall_forall in Hws. destruct (Hws w Hw) as [_ Hfree].
  apply word_strip_fixed. unfold clean_str.
  rewrite (word_strip_fixed Hfree). now apply strip_with_Forall.
Qed.

Lemma clean_str_shape (t : str) :
  exists ws1 p1 p2 ws2,
    t = ws1 ++ p1 ++ clean_str t ++ p2 ++ ws2
    /\ Forall (fun c => isspace c = true) ws1
    /\ Forall (fun c => isspace c = true) ws2
    /\ Forall (fun c => char_in punctuation c = true) p1
    /\ Forall (fun c => char_in punctuation c = true) p2
    /\ ends_free isspace (p1 ++ clean_str t ++ p2)
    /\ ends_free (char_in punctuation) (clean_str t).
Proof.
  destruct (strip_with_split isspace t) as [ws1 [ws2 [Ht [Hw1 Hw2]]]].
  destruct (strip_with_split (char_in punctuation) (str_strip t))
    as [p1 [p2 [Hs [Hp1 Hp2]]]].
  fold (str_strip t) in Ht.
  fold (str_strip_chars punctuation (str_strip t)) in Hs.
  fold (clean_str t) in Hs.
  exists ws1, p1, p2, ws2. repeat split; try assumption.
  - rewrite Ht at 1. rewrite Hs at 1. now rewrite <- !app_assoc.
  - rewrite <- Hs. apply strip_with_ends_free.
  - rewrite <- Hs. apply strip_with_ends_free.
  - apply clean_str_ends_free.
  - apply clean_str_ends_free.
Qed.

(** The inputs on which the normaliser returns: everything but a list
    holding an element that is not a string. *)
Lemma safe_parse_returns `{PyLib} (v : pyval) :
  (forall l, v = PList l -> forallb is_str l = true) ->
  exists toks, safe_parse_matched_keywords v = Ok toks.
Proof.
  intros Hl. destruct v; try (eexists; reflexivity).
  - rewrite safe_parse_str.
    destruct (nonempty (str_strip s)); [|eexists; reflexivity].
    destruct (literal_eval (str_strip s)) as [v|e];
      [|eexists; reflexivity].
    destruct v; cbn beta iota;
      try (destruct (py_str _); eexists; reflexivity).
    destruct (_clean_tokens l); eexists; reflexivity.
  - specialize (Hl l eq_refl). simpl.
    assert (exists ss, l = map PStr ss) as [ss ->].
    { clear H. induction l as [|t l IH]; [now exists []|].
      simpl in Hl. apply andb_prop in Hl. destruct Hl as [Ht Hl].
      destruct (IH Hl) as [ss ->]. destruct t; try discriminate.
      now exists (s :: ss). }
    rewrite _clean_tokens_strs. eexists; reflexivity.
Qed.

(** A list with an element that is not a string makes the normaliser
    raise. *)
Lemma safe_parse_list_raises `{PyLib} (l : list pyval) :
  existsb (fun v => negb (is_str v)) l = true ->
  exists e, safe_parse_matched_keywords (PList l) = Raise e.
Proof.
  intros Hx. simpl. now apply clean_loop_raises.
Qed.

(* ================================================================== *)
(** ** Properties of the normaliser *)

(** C4 (does not hold): [safe_parse_matched_keywords] does not return a
    token list for every input.  A list holding an element that is not a
    string, such as the JSON value [[1]], makes [t.strip()] raise
    [AttributeError] in [_clean_tokens], outside any [try] block, and the
    exception leaves the function. *)
Theorem safe_parse_raises_on_list_of_numbers `{PyLib} :
  safe_parse_matched_keywords (PList [PInt 1]) = Raise AttributeError
  /\ forall st line,
       json_loads line = Ok tweet_numbers ->
       Filtering.loop_body st line = Raise AttributeError
       /\ FilteringParallel.check_tweet line = Raise AttributeError.
Proof.
  split; [reflexivity|]. intros st line Hl.
  unfold Filtering.loop_body, FilteringParallel.check_tweet.
  rewrite Hl. split; reflexivity.
Qed.

Lemma safe_parse_raises_on_list_of_numbers_witness :
  @Filtering.loop_body demo_lib initial line_numbers = Raise AttributeError
  /\ @FilteringParallel.check_tweet demo_lib line_numbers
     = Raise AttributeError.
Proof.
  destruct (@safe_parse_raises_on_list_of_numbers demo_lib) as [_ Hline].
  exact (Hline initial line_numbers eq_refl).
Defined.

(** C6 as stated fails for a decoded sequence that is not a list: the
    string ['a b', 'c'] decodes to a tuple of two strings, and the result is
    not its cleaned elements ["a b"] and ["c"] but the cleaned words of the
    tuple's printed form, ["a"], ["b"] and ["c"]. *)
Lemma decoded_tuple_is_not_cleaned_by_element :
  ~ (forall (L : PyLib) (raw : str) (ss : list str),
        nonempty (str_strip raw) = true ->
        literal_eval (str_strip raw) = Ok (PTuple (map PStr ss)) ->
        safe_parse_matched_keywords (PStr raw) = Ok (clean_strs ss)).
Proof.
  intros Hclaim.
  specialize (Hclaim printing_lib literal_pair [u "a b"; u "c"]
                     eq_refl eq_refl).
  vm_compute in Hclaim. discriminate Hclaim.
Qed.

(** C6 (amended): a non-blank string-valued keyword field is normalised by
    three strategies tried in order.  With [s] the stripped string: when
    [ast.literal_eval s] yields a list whose elements can be cleaned, the
    cleaned elements are returned; when it yields any other value (a
    scalar, but also a tuple, a set or a dict) that [str] can print, the
    printed form is split on whitespace and the words are cleaned; when
    the decoding raises, or cleaning the list or printing the value
    raises, [s] itself is split on whitespace and the words are cleaned. *)
Theorem string_field_three_strategies `{PyLib} (raw : str) :
  nonempty (str_strip raw) = true ->
  (forall l toks,
      literal_eval (str_strip raw) = Ok (PList l) ->
      _clean_tokens l = Ok toks ->
      safe_parse_matched_keywords (PStr raw) = Ok toks)
  /\ (forall ss,
      literal_eval (str_strip raw) = Ok (PList (map PStr ss)) ->
      safe_parse_matched_keywords (PStr raw) = Ok (clean_strs ss))
  /\ (forall v printed,
      literal_eval (str_strip raw) = Ok v ->
      (forall l, v <> PList l) ->
      py_str v = Ok printed ->
      safe_parse_matched_keywords (PStr raw)
      = Ok (clean_strs (str_split printed)))
  /\ (forall e,
      literal_eval (str_strip raw) = Raise e ->
      safe_parse_matched_keywords (PStr raw)
      = Ok (clean_strs (str_split (str_strip raw))))
  /\ (forall l e,
      literal_eval (str_strip raw) = Ok (PList l) ->
      _clean_tokens l = Raise e ->
      safe_parse_matched_keywords (PStr raw)
      = Ok (clean_strs (str_split (str_strip raw))))
  /\ (forall v e,
      literal_eval (str_strip raw) = Ok v ->
      (forall l, v <> PList l) ->
      py_str v = Raise e ->
      safe_parse_matched_keywords (PStr raw)
      = Ok (clean_strs (str_split (str_strip raw)))).
Proof.
  intros Hne. rewrite safe_parse_str, Hne. repeat split.
  - intros l toks -> ->. reflexivity.
  - intros ss ->. now rewrite _clean_tokens_strs.
  - intros v printed -> Hv Hp.
    destruct v; cbn beta iota; rewrite ?Hp; try reflexivity.
    now destruct (Hv l).
  - intros e ->. reflexivity.
  - intros l e -> ->. reflexivity.
  - intros v e -> Hv Hp.
    destruct v; cbn beta iota; rewrite ?Hp; try reflexivity.
    now destruct (Hv l).
Qed.

Lemma string_field_three_strategies_witness :
  @safe_parse_matched_keywords demo_lib (PStr (u "['Kürt,', 'PKK,']"))
  = Ok [u "Kürt"; u "PKK"]
  /\ @safe_parse_matched_keywords demo_lib (PStr (u "'Kürt,'"))
     = Ok [u "Kürt"]
  /\ @safe_parse_matched_keywords demo_lib (PStr (u "Kürt PKK,"))
     = Ok [u "Kürt"; u "PKK"]
  /\ @safe_parse_matched_keywords printing_lib (PStr literal_pair)
     = Ok [u "a"; u "b"; u "c"]
  /\ @safe_parse_matched_keywords printing_lib (PStr literal_big)
     = Ok [literal_big].
Proof.
  split; [|split; [|split; [|split]]].
  - destruct (@string_field_three_strategies demo_lib
                (u "['Kürt,', 'PKK,']") eq_refl) as [_ [H2 _]].
    exact (H2 [u "Kürt,"; u "PKK,"] eq_refl).
  - destruct (@string_field_three_strategies demo_lib
                (u "'Kürt,'") eq_refl) as [_ [_ [H3 _]]].
    refine (H3 (PStr (u "Kürt,")) (u "Kürt,") eq_refl _ eq_refl).
    intros l; discriminate.
  - destruct (@string_field_three_strategies demo_lib
                (u "Kürt PKK,") eq_refl) as [_ [_ [_ [H4 _]]]].
    exact (H4 SyntaxError eq_refl).
  - destruct (@string_field_three_strategies printing_lib
                literal_pair eq_refl) as [_ [_ [H3 _]]].
    refine (H3 value_pair (u "('a b', 'c')") eq_refl _ eq_refl).
    intros l; discriminate.
  - assert (Hne : nonempty (str_strip literal_big) = true)
      by (vm_compute; reflexivity).
    destruct (@string_field_three_strategies printing_lib
                literal_big Hne) as [_ [_ [_ [_ [_ H6]]]]].
    assert (Hsame : clean_strs (str_split (str_strip literal_big))
                    = [literal_big]) by (vm_compute; reflexivity).
    rewrite <- Hsame. apply (H6 value_big ValueError).
    + vm_compute; reflexivity.
    + intros l; discriminate.
    + vm_compute; reflexivity.
Defined.

(** C8: a list-valued keyword field is normalised to its cleaned elements
    in their original order, the empty results left out.  Cleaning a token
    removes a run of whitespace at each end and then a run of ASCII
    punctuation at each end, as far as either goes. *)
Theorem list_field_cleaned_in_order `{PyLib} (l : list str) :
  safe_parse_matched_keywords (PList (map PStr l))
  = Ok (filter nonempty (map clean_str l))
  /\ (forall t, exists ws1 p1 p2 ws2,
        t = ws1 ++ p1 ++ clean_str t ++ p2 ++ ws2
        /\ Forall (fun c => isspace c = true) ws1
        /\ Forall (fun c => isspace c = true) ws2
        /\ Forall (fun c => char_in punctuation c = true) p1
        /\ Forall (fun c => char_in punctuation c = true) p2
        /\ ends_free isspace (p1 ++ clean_str t ++ p2)
        /\ ends_free (char_in punctuation) (clean_str t))
  /\ safe_parse_matched_keywords (PList [PStr (u "Kürt,"); PStr (u "PKK.")])
     = Ok [u "Kürt"; u "PKK"].
Proof.
  split; [|split].
  - simpl. apply _clean_tokens_strs.
  - apply clean_str_shape.
  - reflexivity.
Qed.

(** C9 as stated fails: the list [[", a"]] normalises to [[" a"]], and
    normalising [[" a"]] gives [["a"]]. *)
Lemma normalisation_not_idempotent :
  ~ (forall (L : PyLib) (v : pyval) (toks : list str),
        safe_parse_matched_keywords v = Ok toks ->
        safe_parse_matched_keywords (PList (map PStr toks)) = Ok toks).
Proof.
  intros Hidem.
  specialize (Hidem demo_lib (PList [PStr (u ", a")]) [u " a"] eq_refl).
  discriminate Hidem.
Qed.

(** C9 (amended): normalising the token list the normaliser produced
    returns it unchanged whenever no produced token begins or ends with
    whitespace; that is always so when the field is a string that does not
    decode to a list, since the tokens then come from whitespace
    splitting. *)
Theorem normalisation_idempotent_on_trimmed_output `{PyLib} :
  (forall v toks,
      safe_parse_matched_keywords v = Ok toks ->
      Forall (fun t => str_strip t = t) toks ->
      safe_parse_matched_keywords (PList (map PStr toks)) = Ok toks)
  /\ (forall raw toks,
      (forall l, literal_eval (str_strip raw) <> Ok (PList l)) ->
      safe_parse_matched_keywords (PStr raw) = Ok toks ->
      safe_parse_matched_keywords (PList (map PStr toks)) = Ok toks).
Proof.
  assert (Hfirst : forall v toks,
      safe_parse_matched_keywords v = Ok toks ->
      Forall (fun t => str_strip t = t) toks ->
      safe_parse_matched_keywords (PList (map PStr toks)) = Ok toks).
  { intros v toks Hv Hs. simpl. rewrite _clean_tokens_strs.
    f_equal. apply clean_strs_fixed; [|assumption].
    exact (safe_parse_clean _ Hv). }
  split; [exact Hfirst|].
  intros raw toks Hnl Hraw. apply (Hfirst _ _ Hraw).
  apply safe_parse_str_shape in Hraw.
  destruct Hraw as [[l [Hl _]] | [x ->]]; [now destruct (Hnl l)|].
  apply clean_strs_of_words, str_split_words.
Qed.

Lemma normalisation_idempotent_on_trimmed_output_witness :
  @safe_parse_matched_keywords demo_lib
     (PList (map PStr [u "Kürt"; u "PKK"]))
  = Ok [u "Kürt"; u "PKK"]
  /\ @safe_parse_matched_keywords demo_lib (PList (map PStr [u "a"]))
     = Ok [u "a"].
Proof.
  destruct (@normalisation_idempotent_on_trimmed_output demo_lib)
    as [Hfirst Hsecond].
  split.
  - apply (Hfirst (PStr (u "['Kürt,', 'PKK,']"))); [reflexivity|].
    repeat constructor.
  - apply (Hsecond (u ", a")); [|reflexivity].
    intros l. discriminate.
Defined.

(** C10: a string-valued keyword field never makes the normaliser raise.
    When the decoded literal is a list and cleaning it raises (an element
    is not a string), the bare [except] takes over and the stripped string
    is split on whitespace and cleaned; so ["[1, 2]"] gives [["1"; "2"]]. *)
Theorem string_field_never_raises `{PyLib} (raw : str) :
  (exists toks, safe_parse_matched_keywords (PStr raw) = Ok toks)
  /\ (forall l e,
      literal_eval (str_strip raw) = Ok (PList l) ->
      _clean_tokens l = Raise e ->
      safe_parse_matched_keywords (PStr raw)
      = Ok (clean_strs (str_split (str_strip raw))))
  /\ (literal_eval (u "[1, 2]") = Ok (PList [PInt 1; PInt 2]) ->
      safe_parse_matched_keywords (PStr (u "[1, 2]")) = Ok [u "1"; u "2"]).
Proof.
  split; [|split].
  - apply safe_parse_returns. intros l; discriminate.
  - intros l e Hl Hc. rewrite safe_parse_str, Hl, Hc.
    destruct (nonempty (str_strip raw)) eqn:E; [reflexivity|].
    destruct (str_strip raw); [reflexivity | discriminate].
  - intros Hl. rewrite safe_parse_str.
    change (str_strip (u "[1, 2]")) with (u "[1, 2]").
    rewrite Hl. reflexivity.
Qed.

Lemma string_field_never_raises_witness :
  @safe_parse_matched_keywords demo_lib (PStr (u "[1, 2]"))
  = Ok [u "1"; u "2"].
Proof.
  destruct (@string_field_never_raises demo_lib (u "[1, 2]"))
    as [_ [Hcaught _]].
  exact (Hcaught [PInt 1; PInt 2] AttributeError eq_refl eq_refl).
Defined.

(* ================================================================== *)
(** ** The matcher *)

Lemma starts_with_prefix (needle hay : str) :
  starts_with needle hay = true <-> exists suf, hay = needle ++ suf.
Proof.
  revert hay. induction needle as [|a n IH]; intros hay; simpl.
  - split; [intros _; now exists hay | reflexivity].
  - destruct hay as [|b h].
    + split; [discriminate | intros [suf Hs]; discriminate].
    + rewrite andb_true_iff, Z.eqb_eq, IH. split.
      * intros [-> [suf ->]]. now exists suf.
      * intros [suf Hs]. injection Hs as -> ->. split; [reflexivity|].
        now exists suf.
Qed.

Lemma str_contains_substring (needle hay : str) :
  str_contains needle hay = true <-> is_substring needle hay.
Proof.
  unfold is_substring. induction hay as [|b h IH]; simpl.
  - rewrite orb_false_r, starts_with_prefix. split.
    + intros [suf Hs]. now exists [], suf.
    + intros [pre [suf Hs]]. destruct pre; [now exists suf|discriminate].
  - rewrite orb_true_iff, starts_with_prefix, IH. split.
    + intros [[suf Hs] | [pre [suf Hs]]].
      * now exists [], suf.
      * exists (b :: pre), suf. simpl. now rewrite Hs.
    + intros [pre [suf Hs]]. destruct pre as [|c pre].
      * left. now exists suf.
      * right. injection Hs as _ Hs. now exists pre, suf.
Qed.

Lemma any_in_list_matches `{PyLib} (keywords toks : list str) :
  any_in_list keywords (map str_lower toks) = true
  <-> matches_tokens keywords toks.
Proof.
  unfold any_in_list, matches_tokens. rewrite existsb_exists.
  split; intros [k [Hk Hin]]; exists k; split; try assumption;
    now apply list_contains_In.
Qed.

Lemma any_in_text_matches `{PyLib} (keywords : list str) (text : str) :
  any_in_text keywords (str_lower text) = true
  <-> matches_text keywords text.
Proof.
  unfold any_in_text, matches_text. rewrite existsb_exists.
  split; intros [k [Hk Hin]]; exists k; split; try assumption;
    now apply str_contains_substring.
Qed.

Lemma any_in_list_nil `{PyLib} (keywords : list str) :
  any_in_list keywords [] = false.
Proof.
  unfold any_in_list. induction keywords; simpl; [reflexivity|assumption].
Qed.

Lemma sequential_token_test `{PyLib} (toks : list str) :
  Filtering.token_test (map str_lower toks) = true
  <-> matches_tokens Filtering.kurdish_keywords toks
      /\ matches_tokens Filtering.islam_keywords toks.
Proof.
  unfold Filtering.token_test.
  now rewrite andb_true_iff, !any_in_list_matches.
Qed.

Lemma parallel_token_test `{PyLib} (toks : list str) :
  FilteringParallel.token_test (map str_lower toks) = true
  <-> matches_tokens FilteringParallel.kurdish_keywords toks
      /\ matches_tokens FilteringParallel.islam_keywords toks.
Proof.
  unfold FilteringParallel.token_test.
  now rewrite andb_true_iff, !any_in_list_matches.
Qed.

Lemma parallel_text_test `{PyLib} (text : str) :
  FilteringParallel.text_test (str_lower text) = true
  <-> matches_text FilteringParallel.kurdish_keywords text
      /\ matches_text FilteringParallel.islam_keywords text.
Proof.
  unfold FilteringParallel.text_test.
  now rewrite andb_true_iff, !any_in_text_matches.
Qed.

(** [check_tweet] on a record whose keyword field normalised to [toks]. *)
Lemma check_tweet_parsed `{PyLib} (line : str) (tweet raw : pyval)
      (toks : list str) :
  json_loads line = Ok tweet ->
  dict_get tweet (u "matched_keywords") PNone = Ok raw ->
  safe_parse_matched_keywords raw = Ok toks ->
  FilteringParallel.check_tweet line =
  if FilteringParallel.token_test (map str_lower toks)
  then Ok (FilteringParallel.Pass line)
  else
    tweet_text <- dict_get tweet (u "tweet_text") (PStr []) ;;
    tweet_txt <- method_lower tweet_text ;;
    if FilteringParallel.text_test tweet_txt
    then Ok (FilteringParallel.Pass line)
    else Ok FilteringParallel.NoPass.
Proof.
  intros Hl Hg Hp. unfold FilteringParallel.check_tweet.
  rewrite Hl, Hg. simpl. rewrite Hp. reflexivity.
Qed.

Lemma loop_body_parsed `{PyLib} (st : state) (line : str)
      (tweet raw : pyval) (toks : list str) :
  json_loads line = Ok tweet ->
  dict_get tweet (u "matched_keywords") PNone = Ok raw ->
  safe_parse_matched_keywords raw = Ok toks ->
  Filtering.loop_body st line =
  if Filtering.token_test (map str_lower toks)
  then
    written <- file_write (fout st) (json_dumps tweet ++ newline) ;;
    Ok (mkState (S (total_tweets st)) (S (kept_tweets st)) (S (pbar st))
                written)
  else Ok (count_line st).
Proof.
  intros Hl Hg Hp. unfold Filtering.loop_body.
  rewrite Hl, Hg. simpl. rewrite Hp. reflexivity.
Qed.

(** C1 as stated fails in the sequential filter for a record that passes
    the token-list test and whose dump cannot be encoded: a record holding
    a lone surrogate matches both sets and is not written, the [write]
    raises [UnicodeEncodeError]. *)
Lemma surrogate_record_is_not_written :
  ~ (forall (L : PyLib) (st : state) (line : str) (tweet raw : pyval)
            (toks : list str),
        json_loads line = Ok tweet ->
        dict_get tweet (u "matched_keywords") PNone = Ok raw ->
        safe_parse_matched_keywords raw = Ok toks ->
        matches_tokens Filtering.kurdish_keywords toks
        /\ matches_tokens Filtering.islam_keywords toks ->
        exists st',
          Filtering.loop_body st line = Ok st'
          /\ fout st' = fout st ++ [json_dumps tweet ++ newline]).
Proof.
  intros Hclaim.
  assert (Hin : forall x l, list_contains x l = true -> In x l)
    by (intros x l; apply list_contains_In).
  destruct (Hclaim surrogate_lib initial line_surrogate tweet_surrogate
                   (PList [PStr (u "pkk"); PStr (u "islam")])
                   [u "pkk"; u "islam"] eq_refl eq_refl eq_refl)
    as [st' [Hrun _]].
  - split.
    + exists (u "pkk"). split; apply Hin; reflexivity.
    + exists (u "islam"). split; apply Hin; reflexivity.
  - vm_compute in Hrun. discriminate Hrun.
Qed.

(** C1 (amended): a parsed record is kept only if it matches both keyword
    sets.  The token-list test compares the lowercased keywords with the
    lowercased tokens for equality.  When it finds a keyword of each set,
    the sequential filter writes the record, provided the dump of the
    record can be encoded as UTF-8; if it cannot (a lone surrogate), the
    [write] raises [UnicodeEncodeError] and nothing is written.  When the
    test fails the sequential filter does not write the record.  A worker
    of the parallel filter passes the record when the test succeeds, and
    otherwise only when the text holds a keyword of each set. *)
Theorem record_kept_only_on_both_sets `{PyLib} (st : state) (line : str)
        (tweet raw : pyval) (toks : list str) :
  json_loads line = Ok tweet ->
  dict_get tweet (u "matched_keywords") PNone = Ok raw ->
  safe_parse_matched_keywords raw = Ok toks ->
  (matches_tokens Filtering.kurdish_keywords toks
   /\ matches_tokens Filtering.islam_keywords toks ->
   utf8_encodable (json_dumps tweet ++ newline) = true ->
   Filtering.loop_body st line
   = Ok (mkState (S (total_tweets st)) (S (kept_tweets st)) (S (pbar st))
                 (fout st ++ [json_dumps tweet ++ newline])))
  /\ (matches_tokens Filtering.kurdish_keywords toks
      /\ matches_tokens Filtering.islam_keywords toks ->
      utf8_encodable (json_dumps tweet ++ newline) = false ->
      Filtering.loop_body st line = Raise UnicodeEncodeError)
  /\ (~ (matches_tokens Filtering.kurdish_keywords toks
         /\ matches_tokens Filtering.islam_keywords toks) ->
      Filtering.loop_body st line = Ok (count_line st))
  /\ (matches_tokens FilteringParallel.kurdish_keywords toks
      /\ matches_tokens FilteringParallel.islam_keywords toks ->
      FilteringParallel.check_tweet line = Ok (FilteringParallel.Pass line))
  /\ (forall kept,
      FilteringParallel.check_tweet line = Ok (FilteringParallel.Pass kept) ->
      kept = line
      /\ ((matches_tokens FilteringParallel.kurdish_keywords toks
           /\ matches_tokens FilteringParallel.islam_keywords toks)
          \/ exists text,
               dict_get tweet (u "tweet_text") (PStr []) = Ok (PStr text)
               /\ matches_text FilteringParallel.kurdish_keywords text
               /\ matches_text FilteringParallel.islam_keywords text)).
Proof.
  intros Hl Hg Hp.
  rewrite (loop_body_parsed st _ Hl Hg Hp).
  rewrite (check_tweet_parsed _ Hl Hg Hp).
  split; [|split; [|split; [|split]]].
  - intros Hm He. apply sequential_token_test in Hm. rewrite Hm.
    unfold file_write. now rewrite He.
  - intros Hm He. apply sequential_token_test in Hm. rewrite Hm.
    unfold file_write. now rewrite He.
  - intros Hm. destruct (Filtering.token_test (map str_lower toks)) eqn:E;
      [|reflexivity].
    apply sequential_token_test in E. contradiction.
  - intros Hm. apply parallel_token_test in Hm. now rewrite Hm.
  - intros kept.
    destruct (FilteringParallel.token_test (map str_lower toks)) eqn:E.
    + intros [= <-]. split; [reflexivity|]. left.
      now apply parallel_token_test.
    + destruct (dict_get tweet (u "tweet_text") (PStr [])) as [tt|e];
        [|discriminate].
      destruct tt; try discriminate. simpl.
      destruct (FilteringParallel.text_test (str_lower s)) eqn:Et;
        [|discriminate].
      intros [= <-]. split; [reflexivity|]. right. exists s.
      split; [reflexivity|]. now apply parallel_text_test.
Qed.

Lemma record_kept_only_on_both_sets_witness :
  @Filtering.loop_body demo_lib initial line_both
  = Ok (mkState 1 1 1 [@json_dumps demo_lib tweet_both ++ newline])
  /\ @Filtering.loop_body demo_lib initial line_one = Ok (mkState 1 0 1 [])
  /\ @FilteringParallel.check_tweet demo_lib line_both
     = Ok (FilteringParallel.Pass line_both)
  /\ @Filtering.loop_body surrogate_lib initial line_surrogate
     = Raise UnicodeEncodeError.
Proof.
  assert (Hin : forall x l, list_contains x l = true -> In x l)
    by (intros x l; apply list_contains_In).
  split; [|split; [|split]].
  - destruct (@record_kept_only_on_both_sets demo_lib initial line_both
                tweet_both (PStr (u "['pkk','islam']")) [u "pkk"; u "islam"]
                eq_refl eq_refl eq_refl) as [Hkeep _].
    apply Hkeep; [|reflexivity]. split.
    + exists (u "pkk"). split; apply Hin; reflexivity.
    + exists (u "islam"). split; apply Hin; reflexivity.
  - destruct (@record_kept_only_on_both_sets demo_lib initial line_one
                tweet_one (PStr (u "['pkk']")) [u "pkk"]
                eq_refl eq_refl eq_refl) as [_ [_ [Hskip _]]].
    apply Hskip. intros Hboth.
    apply (@sequential_token_test demo_lib [u "pkk"]) in Hboth.
    discriminate Hboth.
  - destruct (@record_kept_only_on_both_sets demo_lib initial line_both
                tweet_both (PStr (u "['pkk','islam']")) [u "pkk"; u "islam"]
                eq_refl eq_refl eq_refl) as [_ [_ [_ [Hpass _]]]].
    apply Hpass. split.
    + exists (u "pkk"). split; apply Hin; reflexivity.
    + exists (u "islam"). split; apply Hin; reflexivity.
  - destruct (@record_kept_only_on_both_sets surrogate_lib initial
                line_surrogate tweet_surrogate
                (PList [PStr (u "pkk"); PStr (u "islam")])
                [u "pkk"; u "islam"] eq_refl eq_refl eq_refl)
      as [_ [Habort _]].
    apply Habort; [|reflexivity]. split.
    + exists (u "pkk"). split; apply Hin; reflexivity.
    + exists (u "islam"). split; apply Hin; reflexivity.
Defined.

(** C2 as stated fails on the sequential filter, which has no free-text
    test: the record [{"tweet_text": "PKK ve Islam"}] holds a keyword of
    each set in its text and is not written. *)
Lemma sequential_filter_ignores_text :
  ~ (forall (L : PyLib) (st : state) (line : str) (tweet raw : pyval)
            (toks : list str) (text : str),
        json_loads line = Ok tweet ->
        dict_get tweet (u "matched_keywords") PNone = Ok raw ->
        safe_parse_matched_keywords raw = Ok toks ->
        Filtering.token_test (map str_lower toks) = false ->
        dict_get tweet (u "tweet_text") (PStr []) = Ok (PStr text) ->
        matches_text Filtering.kurdish_keywords text ->
        matches_text Filtering.islam_keywords text ->
        exists st',
          Filtering.loop_body st line = Ok st'
          /\ fout st' = fout st ++ [json_dumps tweet ++ newline]).
Proof.
  intros Hclaim.
  assert (Hin : forall x l, list_contains x l = true -> In x l)
    by (intros x l; apply list_contains_In).
  destruct (Hclaim demo_lib initial line_text_only tweet_text_only PNone []
                   (u "PKK ve Islam") eq_refl eq_refl eq_refl eq_refl eq_refl)
    as [st' [Hrun Hout]].
  - exists (u "pkk"). split; [apply Hin; reflexivity|].
    apply str_contains_substring. reflexivity.
  - exists (u "islam"). split; [apply Hin; reflexivity|].
    apply str_contains_substring. reflexivity.
  - vm_compute in Hrun. injection Hrun as <-. discriminate Hout.
Qed.

(** C2 (amended): in the parallel filter, a parsed record whose token-list
    test fails is still passed when its lowercased text holds a keyword of
    each set as a substring, in particular when the record has no keyword
    field; the sequential filter has no such test and does not write a
    record whose token-list test fails. *)
Theorem text_fallback_in_parallel_filter_only `{PyLib} (st : state)
        (line : str) (tweet raw : pyval) (toks : list str) :
  json_loads line = Ok tweet ->
  dict_get tweet (u "matched_keywords") PNone = Ok raw ->
  safe_parse_matched_keywords raw = Ok toks ->
  (forall text,
      FilteringParallel.token_test (map str_lower toks) = false ->
      dict_get tweet (u "tweet_text") (PStr []) = Ok (PStr text) ->
      matches_text FilteringParallel.kurdish_keywords text ->
      matches_text FilteringParallel.islam_keywords text ->
      FilteringParallel.check_tweet line = Ok (FilteringParallel.Pass line))
  /\ (raw = PNone ->
      FilteringParallel.token_test (map str_lower toks) = false)
  /\ (Filtering.token_test (map str_lower toks) = false ->
      Filtering.loop_body st line = Ok (count_line st)).
Proof.
  intros Hl Hg Hp.
  rewrite (loop_body_parsed st _ Hl Hg Hp).
  rewrite (check_tweet_parsed _ Hl Hg Hp).
  split; [|split].
  - intros text -> -> HA HB. simpl.
    assert (Ht : FilteringParallel.text_test (str_lower text) = true)
      by (apply parallel_text_test; now split).
    now rewrite Ht.
  - intros ->. injection Hp as <-. simpl.
    unfold FilteringParallel.token_test. now rewrite any_in_list_nil.
  - intros ->. reflexivity.
Qed.

Lemma text_fallback_in_parallel_filter_only_witness :
  @FilteringParallel.check_tweet demo_lib line_text_only
  = Ok (FilteringParallel.Pass line_text_only)
  /\ @Filtering.loop_body demo_lib initial line_text_only
     = Ok (count_line initial).
Proof.
  assert (Hin : forall x l, list_contains x l = true -> In x l)
    by (intros x l; apply list_contains_In).
  destruct (@text_fallback_in_parallel_filter_only demo_lib initial
              line_text_only tweet_text_only PNone []
              eq_refl eq_refl eq_refl) as [Hpass [Hnone Hseq]].
  split.
  - apply (Hpass (u "PKK ve Islam")).
    + apply Hnone. reflexivity.
    + reflexivity.
    + exists (u "pkk"). split; [apply Hin; reflexivity|].
      apply str_contains_substring. reflexivity.
    + exists (u "islam"). split; [apply Hin; reflexivity|].
      apply str_contains_substring. reflexivity.
  - apply Hseq. reflexivity.
Defined.

(* ================================================================== *)
(** ** The two loops *)

Lemma escape_char_length (c : Z) : 1 <= List.length (escape_char c).
Proof.
  unfold escape_char.
  repeat match goal with
         | |- context [if ?b then _ else _] => destruct b
         end; simpl; lia.
Qed.

Lemma escaped_length (s : str) :
  List.length s <= List.length (flat_map escape_char s).
Proof.
  induction s as [|c s IH]; simpl; [lia|].
  rewrite length_app. pose proof (escape_char_length c). lia.
Qed.

Lemma py_encode_basestring_longer (s : str) :
  List.length s + 2 <= List.length (py_encode_basestring s).
Proof.
  unfold py_encode_basestring. simpl. rewrite length_app. simpl.
  pose proof (escaped_length s). lia.
Qed.

(** C3 (does not hold): what the parallel filter writes for a kept
    record is not a copy of the input record.  The writer applies
    [json.dumps] to the line, a string, so it writes a JSON string literal:
    the line between double quotes, with its quotes and its line end
    escaped.  For the line [{"matched_keywords": "['pkk','islam']"}] the
    text written is ["{\"matched_keywords\": \"['pkk','islam']\"}\n"]. *)
Theorem parallel_writer_quotes_the_line `{PyLib} (st : state) (line : str) :
  FilteringParallel.writer_body st (Ok (FilteringParallel.Pass line))
  = Ok (mkState (total_tweets st) (S (S (kept_tweets st))) (S (pbar st))
                (fout st ++ [py_encode_basestring line; newline]))
  /\ hd 0%Z (py_encode_basestring line) = 34%Z
  /\ py_encode_basestring line <> line
  /\ py_encode_basestring line_both
     = uq "`{\`matched_keywords\`: \`['pkk','islam']\`}\n`".
Proof.
  split; [reflexivity|]. split; [reflexivity|]. split; [|reflexivity].
  intros Heq. pose proof (py_encode_basestring_longer line) as Hlen.
  rewrite Heq in Hlen. lia.
Qed.

Lemma writer_loop_from `{PyLib} (results : list FilteringParallel.linedct)
      (st : state) :
  FilteringParallel.writer_loop st (map Ok results)
  = Ok (mkState (total_tweets st)
                (kept_tweets st + List.length results
                 + List.length (filter is_pass results))
                (pbar st + List.length results)
                (fout st ++ written results)).
Proof.
  revert st. induction results as [|r rs IH]; intros st.
  - simpl. rewrite !Nat.add_0_r, app_nil_r. now destruct st.
  - cbn [map FilteringParallel.writer_loop]. destruct r as [line|].
    + cbn [FilteringParallel.writer_body bind]. rewrite IH. simpl.
      f_equal. f_equal; try lia.
      now rewrite <- app_assoc.
    + cbn [FilteringParallel.writer_body bind]. rewrite IH. simpl.
      f_equal. f_equal; lia.
Qed.

(** C5 (does not hold): the parallel filter never increments
    [total_tweets] and increments [kept_tweets] once for every result that
    arrives and once more for every record written; so it reports 0 lines
    processed, and as kept the number of lines plus the number of records
    written. *)
Theorem parallel_summary_miscounts `{PyLib}
        (results : list FilteringParallel.linedct) :
  exists st,
    FilteringParallel.writer_loop initial (map Ok results) = Ok st
    /\ fout st = written results
    /\ summary st
       = (0, List.length results + List.length (filter is_pass results))
    /\ (results <> [] ->
        summary st
        <> (List.length results, List.length (filter is_pass results))).
Proof.
  rewrite writer_loop_from. eexists. split; [reflexivity|].
  split; [reflexivity|]. split; [reflexivity|].
  intros Hne. unfold summary. simpl. destruct results; [contradiction|].
  simpl. intros Hs. discriminate Hs.
Qed.

Lemma parallel_summary_miscounts_witness :
  exists st,
    @FilteringParallel.writer_loop demo_lib initial
       [Ok FilteringParallel.NoPass] = Ok st
    /\ summary st = (0, 1)
    /\ summary st <> (1, 0).
Proof.
  destruct (@parallel_summary_miscounts demo_lib [FilteringParallel.NoPass])
    as [st [Hrun [_ [Hsum Hne]]]].
  exists st. split; [exact Hrun|]. split; [exact Hsum|].
  apply Hne. discriminate.
Defined.

Lemma main_loop_app `{PyLib} (before after : list str) (st : state) :
  Filtering.main_loop st (before ++ after)
  = (st1 <- Filtering.main_loop st before ;; Filtering.main_loop st1 after).
Proof.
  revert st. induction before as [|line before IH]; intros st; simpl;
    [reflexivity|].
  destruct (Filtering.loop_body st line) as [st'|e]; simpl;
    [apply IH | reflexivity].
Qed.



(** The sequential filter counts as the report says: one line processed
    per input line, one record kept per [write]. *)
Lemma sequential_summary_counts `{PyLib} (fin : list str) (st st' : state) :
  Filtering.main_loop st fin = Ok st' ->
  total_tweets st' = total_tweets st + List.length fin
  /\ kept_tweets st' + List.length (fout st)
     = kept_tweets st + List.length (fout st').
Proof.
  revert st. induction fin as [|line fin IH]; intros st; simpl.
  - intros [= <-]. lia.
  - destruct (Filtering.loop_body st line) as [st1|e] eqn:E; [|discriminate].
    simpl. intros Hrest. apply IH in Hrest.
    assert (total_tweets st1 = S (total_tweets st)
            /\ kept_tweets st1 + List.length (fout st)
               = kept_tweets st + List.length (fout st1)) as [Ht Hk].
    { unfold Filtering.loop_body in E.
      destruct (json_loads line) as [tweet|e].
      - destruct (dict_get tweet (u "matched_keywords") PNone) as [raw|e];
          [|discriminate].
        simpl in E. destruct (safe_parse_matched_keywords raw) as [toks|e];
          [|discriminate].
        simpl in E. unfold file_write in E.
        destruct (Filtering.token_test (map str_lower toks));
          [destruct (utf8_encodable (json_dumps tweet ++ newline));
           [|discriminate]|];
          injection E as <-; simpl; rewrite ?length_app; simpl; lia.
      - destruct e; try discriminate. injection E as <-. simpl. lia. }
    lia.
Qed.

(** The whole sequential script, when it reaches its [print] calls,
    reports the number of input lines and the number of records written. *)
Lemma sequential_run_reports `{PyLib} (fin : list str) (total kept : nat)
      (out : list str) :
  Filtering.run fin = Ok (total, kept, out) ->
  total = List.length fin /\ kept = List.length out.
Proof.
  unfold Filtering.run.
  destruct (Filtering.main_loop initial fin) as [st|e] eqn:E; [|discriminate].
  simpl. intros [= <- <- <-].
  apply sequential_summary_counts in E. simpl in E. lia.
Qed.

(** The parallel script on an input whose workers all return: whatever the
    order of arrival, it reports 0 lines and counts every line as kept. *)
Lemma parallel_run_reports `{PyLib} (fin : list str)
      (results : list FilteringParallel.linedct) :
  FilteringParallel.arrival_order fin (map Ok results) ->
  exists st,
    FilteringParallel.writer_loop initial (map Ok results) = Ok st
    /\ summary st
       = (0, List.length fin + List.length (filter is_pass results)).
Proof.
  intros Harr. apply Permutation_length in Harr.
  rewrite !length_map in Harr. rewrite writer_loop_from.
  eexists. split; [reflexivity|]. unfold summary. simpl. now rewrite Harr.
Qed.



(* ================================================================== *)
(** ** Further properties of the normaliser *)

Lemma lstrip_all (p : Z -> bool) (s : str) :
  lstrip p s = [] <-> Forall (fun c => p c = true) s.
Proof.
  induction s as [|c s IH]; simpl.
  - split; [constructor | reflexivity].
  - destruct (p c) eqn:E.
    + rewrite IH. split; [now constructor | now inversion 1].
    + split; [discriminate | inversion 1; congruence].
Qed.

Lemma strip_with_all (p : Z -> bool) (s : str) :
  strip_with p s = [] <-> Forall (fun c => p c = true) s.
Proof.
  unfold strip_with, rstrip. split.
  - intros Hs. apply (f_equal (@rev Z)) in Hs.
    rewrite rev_involutive in Hs. simpl in Hs.
    apply lstrip_all in Hs. apply Forall_rev in Hs.
    rewrite rev_involutive in Hs.
    destruct (lstrip_split p s) as [pre [Heq Hpre]].
    rewrite Heq. apply Forall_app. now split.
  - intros Hs. apply lstrip_all in Hs. rewrite Hs. reflexivity.
Qed.

Lemma lstrip_pad (p : Z -> bool) (ws s : str) :
  Forall (fun c => p c = true) ws -> lstrip p (ws ++ s) = lstrip p s.
Proof.
  induction 1 as [|c ws Hc Hws IH]; simpl; [reflexivity|].
  now rewrite Hc.
Qed.

Lemma rstrip_pad (p : Z -> bool) (s ws : str) :
  Forall (fun c => p c = true) ws -> rstrip p (s ++ ws) = rstrip p s.
Proof.
  intros Hws. unfold rstrip. rewrite rev_app_distr.
  rewrite lstrip_pad; [reflexivity | now apply Forall_rev].
Qed.

Lemma strip_with_pad (p : Z -> bool) (ws1 s ws2 : str) :
  Forall (fun c => p c = true) ws1 ->
  Forall (fun c => p c = true) ws2 ->
  strip_with p (ws1 ++ s ++ ws2) = strip_with p s.
Proof.
  intros H1 H2. unfold strip_with. rewrite lstrip_pad by assumption.
  induction s as [|c s IH]; simpl.
  - apply lstrip_all in H2. now rewrite H2.
  - destruct (p c); [exact IH|].
    change (c :: s ++ ws2) with ((c :: s) ++ ws2). now apply rstrip_pad.
Qed.

(** X1: a keyword field that is absent, null, a number, a boolean, an
    object, an empty list or a string of whitespace only yields no token;
    the sequential filter counts the record without writing it, and a
    parallel worker decides on the text alone. *)
Theorem blank_field_yields_no_token `{PyLib} (st : state) (line : str)
        (tweet raw : pyval) :
  json_loads line = Ok tweet ->
  dict_get tweet (u "matched_keywords") PNone = Ok raw ->
  blank_field raw ->
  safe_parse_matched_keywords raw = Ok []
  /\ Filtering.loop_body st line = Ok (count_line st)
  /\ FilteringParallel.check_tweet line
     = (tweet_text <- dict_get tweet (u "tweet_text") (PStr []) ;;
        tweet_txt <- method_lower tweet_text ;;
        if FilteringParallel.text_test tweet_txt
        then Ok (FilteringParallel.Pass line)
        else Ok FilteringParallel.NoPass).
Proof.
  intros Hl Hg Hb.
  assert (Hp : safe_parse_matched_keywords raw = Ok []).
  { destruct raw; try reflexivity.
    - simpl in Hb. rewrite safe_parse_str.
      apply (strip_with_all isspace) in Hb. unfold str_strip.
      now rewrite Hb.
    - simpl in Hb. now subst. }
  split; [exact Hp|]. split.
  - rewrite (loop_body_parsed st _ Hl Hg Hp). cbn [map].
    unfold Filtering.token_test. now rewrite any_in_list_nil.
  - rewrite (check_tweet_parsed _ Hl Hg Hp). cbn [map].
    unfold FilteringParallel.token_test. now rewrite any_in_list_nil.
Qed.

Lemma blank_field_yields_no_token_witness :
  @safe_parse_matched_keywords edge_lib (PStr (u "  ")) = Ok []
  /\ @Filtering.loop_body edge_lib initial line_blank
     = Ok (count_line initial)
  /\ @Filtering.loop_body edge_lib initial line_text_only
     = Ok (count_line initial).
Proof.
  destruct (@blank_field_yields_no_token edge_lib initial line_blank
              tweet_blank (PStr (u "  ")) eq_refl eq_refl)
    as [Hparse [Hbody _]]; [repeat constructor|].
  destruct (@blank_field_yields_no_token edge_lib initial line_text_only
              tweet_text_only PNone eq_refl eq_refl I) as [_ [Habsent _]].
  split; [exact Hparse|]. split; [exact Hbody | exact Habsent].
Defined.

(** X2: every token the normaliser returns is non-empty and neither
    begins nor ends with an ASCII punctuation character; so a string that
    does, such as the keyword ["c.c."], is never among the tokens. *)
Theorem normalised_tokens_are_clean `{PyLib} (v : pyval)
        (toks : list str) :
  safe_parse_matched_keywords v = Ok toks ->
  Forall (fun t => t <> [] /\ ends_free (char_in punctuation) t) toks
  /\ (forall k, ~ ends_free (char_in punctuation) k -> ~ In k toks)
  /\ ~ In (u "c.c.") toks.
Proof.
  intros Hv. apply safe_parse_clean in Hv.
  assert (Hfree : forall k,
             ~ ends_free (char_in punctuation) k -> ~ In k toks).
  { intros k Hk Hin. rewrite Forall_forall in Hv.
    destruct (Hv k Hin) as [_ He]. contradiction. }
  split; [|split; [exact Hfree|]].
  - apply Forall_forall. intros t Ht. rewrite Forall_forall in Hv.
    destruct (Hv t Ht) as [Hne He]. split; [|exact He].
    intros ->. discriminate Hne.
  - apply Hfree. intros [_ Hlast]. discriminate Hlast.
Qed.

Lemma normalised_tokens_are_clean_witness :
  Forall (fun t => t <> [] /\ ends_free (char_in punctuation) t)
         [u "Kürt"; u "PKK"]
  /\ ~ In (u "c.c.") [u "Kürt"; u "PKK"].
Proof.
  destruct (@normalised_tokens_are_clean demo_lib
              (PStr (u "['Kürt,', 'PKK,']")) [u "Kürt"; u "PKK"] eq_refl)
    as [Hclean [_ Hcc]].
  split; [exact Hclean | exact Hcc].
Defined.

Lemma clean_str_empty (t : str) :
  clean_str t = []
  <-> Forall (fun c => char_in punctuation c = true) (str_strip t).
Proof.
  apply strip_with_all.
Qed.

(** X3: a list element is dropped exactly when, once trimmed of
    whitespace, it consists of punctuation characters only; the elements
    that are not dropped appear cleaned, in their order. *)
Theorem token_dropped_iff_only_punctuation (l : list str) :
  _clean_tokens (map PStr l)
  = Ok (map clean_str
            (filter (fun t => negb (forallb (char_in punctuation)
                                            (str_strip t))) l))
  /\ forall t,
       clean_str t = []
       <-> Forall (fun c => char_in punctuation c = true) (str_strip t).
Proof.
  split; [|exact clean_str_empty].
  rewrite _clean_tokens_strs. f_equal. unfold clean_strs.
  induction l as [|t l IH]; [reflexivity|].
  cbn [map filter]. rewrite IH.
  destruct (forallb (char_in punctuation) (str_strip t)) eqn:E;
    cbn [negb map].
  - assert (Hempty : clean_str t = []).
    { apply clean_str_empty. apply Forall_forall.
      rewrite forallb_forall in E. exact E. }
    rewrite Hempty. reflexivity.
  - destruct (clean_str t) as [|c r] eqn:Ec; [|reflexivity].
    apply clean_str_empty in Ec. rewrite Forall_forall in Ec.
    assert (Hall : forallb (char_in punctuation) (str_strip t) = true)
      by (apply forallb_forall; exact Ec).
    congruence.
Qed.

Lemma clean_strs_whitespace_free (ws : list str) :
  Forall is_word ws ->
  Forall (Forall (fun c => isspace c = false)) (clean_strs ws).
Proof.
  intros Hws. apply Forall_forall. intros t Ht. unfold clean_strs in Ht.
  apply filter_In in Ht. destruct Ht as [Hin _].
  apply in_map_iff in Hin. destruct Hin as [w [<- Hw]].
  rewrite Forall_forall in Hws. destruct (Hws w Hw) as [_ Hfree].
  unfold clean_str. rewrite (word_strip_fixed Hfree).
  now apply strip_with_Forall.
Qed.

(** X4: when a string-valued field does not decode to a list, no token
    returned holds a whitespace character: the tokens are cut out of
    whitespace-separated words. *)
Theorem split_tokens_hold_no_whitespace `{PyLib} (raw : str)
        (toks : list str) :
  (forall l, literal_eval (str_strip raw) <> Ok (PList l)) ->
  safe_parse_matched_keywords (PStr raw) = Ok toks ->
  Forall (Forall (fun c => isspace c = false)) toks.
Proof.
  intros Hnl Hraw. apply safe_parse_str_shape in Hraw.
  destruct Hraw as [[l [Hl _]] | [x ->]]; [now destruct (Hnl l)|].
  apply clean_strs_whitespace_free, str_split_words.
Qed.

Lemma split_tokens_hold_no_whitespace_witness :
  Forall (Forall (fun c => isspace c = false)) [u "Kürt"; u "PKK"].
Proof.
  apply (@split_tokens_hold_no_whitespace demo_lib (u " Kürt  PKK, ")).
  - intros l. discriminate.
  - reflexivity.
Defined.

(** X5: whitespace around a string-valued field does not matter: the
    field padded with whitespace on either side normalises as the field
    itself. *)
Theorem padding_does_not_matter `{PyLib} (ws1 raw ws2 : str) :
  Forall (fun c => isspace c = true) ws1 ->
  Forall (fun c => isspace c = true) ws2 ->
  safe_parse_matched_keywords (PStr (ws1 ++ raw ++ ws2))
  = safe_parse_matched_keywords (PStr raw).
Proof.
  intros H1 H2. rewrite !safe_parse_str. unfold str_strip.
  now rewrite strip_with_pad by assumption.
Qed.

Lemma padding_does_not_matter_witness :
  @safe_parse_matched_keywords demo_lib (PStr (u "  [1, 2] "))
  = @safe_parse_matched_keywords demo_lib (PStr (u "[1, 2]")).
Proof.
  apply (@padding_does_not_matter demo_lib (u "  ") (u "[1, 2]") (u " "));
    repeat constructor.
Defined.


(* ================================================================== *)
(** ** Further properties of the sequential filter *)

Lemma loop_body_step `{PyLib} (st st1 : state) (line : str) :
  Filtering.loop_body st line = Ok st1 ->
  total_tweets st1 = S (total_tweets st)
  /\ pbar st1 = S (pbar st)
  /\ fout st1 = fout st ++ sequential_output line
  /\ kept_tweets st1
     = kept_tweets st + List.length (sequential_output line)
  /\ List.length (sequential_output line) <= 1.
Proof.
  unfold sequential_output, Filtering.loop_body.
  destruct (json_loads line) as [tweet|e].
  - destruct (dict_get tweet (u "matched_keywords") PNone) as [raw|e];
      [|discriminate].
    simpl. destruct (safe_parse_matched_keywords raw) as [toks|e];
      [|discriminate].
    simpl. unfold file_write.
    destruct (Filtering.token_test (map str_lower toks));
      [destruct (utf8_encodable (json_dumps tweet ++ newline));
       [|discriminate]|];
      intros [= <-]; simpl; rewrite ?app_nil_r; repeat split; lia.
  - destruct e; try discriminate. intros [= <-]. simpl.
    rewrite app_nil_r. repeat split; lia.
Qed.

Lemma main_loop_steps `{PyLib} (fin : list str) (st st' : state) :
  Filtering.main_loop st fin = Ok st' ->
  total_tweets st' = total_tweets st + List.length fin
  /\ pbar st' = pbar st + List.length fin
  /\ fout st' = fout st ++ flat_map sequential_output fin
  /\ kept_tweets st'
     = kept_tweets st + List.length (flat_map sequential_output fin)
  /\ List.length (flat_map sequential_output fin) <= List.length fin.
Proof.
  revert st. induction fin as [|line fin IH]; intros st; simpl.
  - intros [= <-]. rewrite app_nil_r. repeat split; lia.
  - destruct (Filtering.loop_body st line) as [st1|e] eqn:E;
      [|discriminate].
    simpl. intros Hrest. apply IH in Hrest.
    apply loop_body_step in E.
    destruct E as [Et [Ep [Ef [Ek El]]]].
    destruct Hrest as [Ht [Hp [Hf [Hk Hl]]]].
    rewrite length_app. repeat split; try lia.
    rewrite Hf, Ef. now rewrite <- app_assoc.
Qed.

(** X6: when the sequential filter gets through its input, the numbers
    it reports are right: [total_tweets] and the progress bar equal the
    number of input lines, [kept_tweets] equals the number of [write]
    calls, and never more records are kept than lines were read. *)
Theorem sequential_counters_are_exact `{PyLib} (fin : list str)
        (st : state) :
  Filtering.main_loop initial fin = Ok st ->
  total_tweets st = List.length fin
  /\ pbar st = List.length fin
  /\ kept_tweets st = List.length (fout st)
  /\ kept_tweets st <= total_tweets st.
Proof.
  intros Hrun. apply main_loop_steps in Hrun. simpl in Hrun.
  destruct Hrun as [Ht [Hp [Hf [Hk Hl]]]].
  rewrite Hf. repeat split; lia.
Qed.

Lemma sequential_counters_are_exact_witness :
  exists st,
    @Filtering.main_loop demo_lib initial
       [line_both; line_broken; line_one] = Ok st
    /\ total_tweets st = 3 /\ kept_tweets st = List.length (fout st).
Proof.
  eexists. split; [reflexivity|].
  destruct (@sequential_counters_are_exact demo_lib
              [line_both; line_broken; line_one] _ eq_refl)
    as [Ht [_ [Hk _]]].
  split; [exact Ht | exact Hk].
Defined.

Lemma loop_body_stateless `{PyLib} (st : state) (line : str) :
  is_ok_run (Filtering.loop_body st line) = line_completes line.
Proof.
  unfold line_completes, Filtering.loop_body.
  destruct (json_loads line) as [tweet|e]; [|destruct e; reflexivity].
  destruct (dict_get tweet (u "matched_keywords") PNone) as [raw|e];
    [|reflexivity].
  simpl. destruct (safe_parse_matched_keywords raw) as [toks|e];
    [|reflexivity].
  simpl. destruct (Filtering.token_test (map str_lower toks));
    [|reflexivity].
  unfold file_write.
  destruct (utf8_encodable (json_dumps tweet ++ newline)); reflexivity.
Qed.

Lemma sequential_file_processed `{PyLib} (fin : list str) (st : state) :
  sequential_file st fin
  = fout st ++ flat_map sequential_output (processed fin).
Proof.
  revert st. induction fin as [|line fin IH]; intros st; simpl.
  - now rewrite app_nil_r.
  - pose proof (loop_body_stateless st line) as Hsame.
    destruct (Filtering.loop_body st line) as [st1|e] eqn:E;
      simpl in Hsame; rewrite <- Hsame.
    + apply loop_body_step in E. destruct E as [_ [_ [Ef _]]].
      rewrite IH, Ef. simpl. now rewrite <- app_assoc.
    + simpl. now rewrite app_nil_r.
Qed.

Lemma main_loop_processed `{PyLib} (fin : list str) (st st' : state) :
  Filtering.main_loop st fin = Ok st' ->
  processed fin = fin /\ sequential_file st fin = fout st'.
Proof.
  revert st. induction fin as [|line fin IH]; intros st; simpl.
  - intros [= <-]. split; reflexivity.
  - pose proof (loop_body_stateless st line) as Hsame.
    destruct (Filtering.loop_body st line) as [st1|e] eqn:E;
      [|discriminate].
    simpl in Hsame. rewrite <- Hsame. simpl. intros Hrest.
    destruct (IH _ Hrest) as [Hp Hf]. split; [now rewrite Hp | exact Hf].
Qed.

(** X7: the sequential filter treats every line on its own and keeps the
    input order.  What a run has written when it ends, whether at the end
    of the input or by an exception, is the concatenation, in input
    order, of what each line alone makes it write, over the lines before
    the first one that raises (all lines when the run gets through).  A
    line alone writes nothing, or the dump of its parsed record followed by
    a line feed when that text can be encoded. *)
Theorem sequential_output_in_input_order `{PyLib} (fin : list str)
        (st : state) :
  sequential_file st fin
  = fout st ++ flat_map sequential_output (processed fin)
  /\ (forall st',
        Filtering.main_loop st fin = Ok st' ->
        processed fin = fin
        /\ sequential_file st fin = fout st'
        /\ fout st' = fout st ++ flat_map sequential_output fin)
  /\ (forall line,
        sequential_output line = []
        \/ exists tweet,
             json_loads line = Ok tweet
             /\ utf8_encodable (json_dumps tweet ++ newline) = true
             /\ sequential_output line = [json_dumps tweet ++ newline]).
Proof.
  split; [apply sequential_file_processed|]. split.
  - intros st' Hrun. destruct (main_loop_processed _ _ Hrun) as [Hp Hf].
    split; [exact Hp|]. split; [exact Hf|].
    rewrite <- Hf, sequential_file_processed. now rewrite Hp.
  - intros line. unfold sequential_output, Filtering.loop_body.
    destruct (json_loads line) as [tweet|e];
      [|left; destruct e; reflexivity].
    destruct (dict_get tweet (u "matched_keywords") PNone) as [raw|e];
      [|now left].
    simpl. destruct (safe_parse_matched_keywords raw) as [toks|e];
      [|now left].
    simpl. destruct (Filtering.token_test (map str_lower toks));
      [|now left].
    unfold file_write.
    destruct (utf8_encodable (json_dumps tweet ++ newline)) eqn:E;
      [|now left].
    right. exists tweet. split; [reflexivity|].
    split; [exact E | reflexivity].
Qed.

Lemma sequential_output_in_input_order_witness :
  @sequential_file edge_lib initial [line_both; line_array; line_both]
  = [@json_dumps edge_lib tweet_both ++ newline]
  /\ exists st,
       @Filtering.main_loop demo_lib initial
          [line_one; line_both; line_broken; line_both] = Ok st
       /\ fout st = [@json_dumps demo_lib tweet_both ++ newline;
                     @json_dumps demo_lib tweet_both ++ newline].
Proof.
  split.
  - destruct (@sequential_output_in_input_order edge_lib
                [line_both; line_array; line_both] initial) as [Hfile _].
    exact Hfile.
  - eexists. split; [reflexivity|].
    destruct (@sequential_output_in_input_order demo_lib
                [line_one; line_both; line_broken; line_both] initial)
      as [_ [Hrun _]].
    destruct (Hrun _ eq_refl) as [_ [_ Hout]]. exact Hout.
Defined.

(** X8: a line that is valid JSON but not an object (an array, a number,
    a string, [null]) stops either script: [tweet.get] raises
    [AttributeError], which no handler catches, so the sequential run
    ends there without reaching the lines after it or its report. *)
Theorem non_object_line_aborts `{PyLib} (line : str) (v : pyval) :
  json_loads line = Ok v ->
  (forall d, v <> PDict d) ->
  (forall st, Filtering.loop_body st line = Raise AttributeError)
  /\ FilteringParallel.check_tweet line = Raise AttributeError
  /\ (forall st st1 before after,
        Filtering.main_loop st before = Ok st1 ->
        Filtering.main_loop st (before ++ line :: after)
        = Raise AttributeError)
  /\ (forall before after,
        is_ok_run (Filtering.main_loop initial before) = true ->
        Filtering.run (before ++ line :: after) = Raise AttributeError).
Proof.
  intros Hl Hv.
  assert (Hget : forall key default,
             dict_get v key default = Raise AttributeError).
  { intros key default. destruct v; try reflexivity. now destruct (Hv d). }
  assert (Hbody : forall st,
             Filtering.loop_body st line = Raise AttributeError).
  { intros st. unfold Filtering.loop_body. now rewrite Hl, Hget. }
  assert (Hmain : forall st st1 before after,
             Filtering.main_loop st before = Ok st1 ->
             Filtering.main_loop st (before ++ line :: after)
             = Raise AttributeError).
  { intros st st1 before after Hb. rewrite main_loop_app, Hb. simpl.
    now rewrite Hbody. }
  split; [exact Hbody|]. split; [|split; [exact Hmain|]].
  - unfold FilteringParallel.check_tweet. now rewrite Hl, Hget.
  - intros before after Hok. unfold Filtering.run.
    destruct (Filtering.main_loop initial before) as [st1|e] eqn:E;
      [|discriminate].
    now rewrite (Hmain initial st1 before after E).
Qed.

Lemma non_object_line_aborts_witness :
  @Filtering.run edge_lib [line_both; line_array; line_both]
  = Raise AttributeError
  /\ @FilteringParallel.check_tweet edge_lib line_array
     = Raise AttributeError.
Proof.
  destruct (@non_object_line_aborts edge_lib line_array
              (PList [PInt 1; PInt 2]) eq_refl)
    as [_ [Hworker [_ Hrun]]]; [intros d; discriminate|].
  split; [|exact Hworker].
  exact (Hrun [line_both] [line_both] eq_refl).
Defined.

(* ================================================================== *)
(** ** Further properties of the parallel filter *)

(** X9: a worker looks at the text only after the token-list test has
    failed, and then needs it to be a string: a record whose [tweet_text]
    is [null], a number, a list or an object makes [check_tweet] raise
    [AttributeError] on [.lower()]; when the token-list test passes, the
    same record is passed without the text being read. *)
Theorem text_must_be_a_string `{PyLib} (line : str) (tweet raw text : pyval)
        (toks : list str) :
  json_loads line = Ok tweet ->
  dict_get tweet (u "matched_keywords") PNone = Ok raw ->
  safe_parse_matched_keywords raw = Ok toks ->
  dict_get tweet (u "tweet_text") (PStr []) = Ok text ->
  is_str text = false ->
  (forall b, text <> PBytes b) ->
  (FilteringParallel.token_test (map str_lower toks) = false ->
   FilteringParallel.check_tweet line = Raise AttributeError)
  /\ (FilteringParallel.token_test (map str_lower toks) = true ->
      FilteringParallel.check_tweet line
      = Ok (FilteringParallel.Pass line)).
Proof.
  intros Hl Hg Hp Ht Hs Hb. rewrite (check_tweet_parsed _ Hl Hg Hp), Ht.
  split; intros ->; [|reflexivity].
  destruct text; try reflexivity; [discriminate | now destruct (Hb b)].
Qed.

Lemma text_must_be_a_string_witness :
  @FilteringParallel.check_tweet edge_lib line_null_text
  = Raise AttributeError.
Proof.
  destruct (@text_must_be_a_string edge_lib line_null_text tweet_null_text
              PNone PNone [] eq_refl eq_refl eq_refl eq_refl eq_refl)
    as [Hraise _]; [intros b; discriminate|].
  apply Hraise. reflexivity.
Defined.

Lemma hex_digit_no_newline (d : Z) : (0 <= d)%Z -> hex_digit d <> 10%Z.
Proof.
  intros Hd. unfold hex_digit. destruct (d <? 10)%Z; lia.
Qed.

Lemma escape_char_no_newline (c : Z) : ~ In 10%Z (escape_char c).
Proof.
  unfold escape_char.
  destruct (c =? 34)%Z; [simpl; intuition lia|].
  destruct (c =? 92)%Z; [simpl; intuition lia|].
  destruct (c =? 8)%Z; [simpl; intuition lia|].
  destruct (c =? 12)%Z; [simpl; intuition lia|].
  destruct (c =? 10)%Z eqn:E10; [simpl; intuition lia|].
  destruct (c =? 13)%Z; [simpl; intuition lia|].
  destruct (c =? 9)%Z; [simpl; intuition lia|].
  destruct ((0 <=? c) && (c <? 32))%Z eqn:Ectl.
  - apply andb_prop in Ectl. destruct Ectl as [Hlo _].
    apply Z.leb_le in Hlo.
    pose proof (@hex_digit_no_newline (c / 16)
                  (Z.div_pos c 16 Hlo eq_refl)) as H1.
    pose proof (Z.mod_pos_bound c 16 eq_refl) as Hm.
    pose proof (@hex_digit_no_newline (c mod 16) (proj1 Hm)) as H2.
    simpl. intuition lia.
  - apply Z.eqb_neq in E10. simpl. intuition lia.
Qed.

Lemma py_encode_basestring_no_newline (s : str) :
  ~ In 10%Z (py_encode_basestring s).
Proof.
  unfold py_encode_basestring. simpl. intros [H|H]; [lia|].
  apply in_app_or in H. destruct H as [H|H].
  - apply in_flat_map in H. destruct H as [c [_ Hc]].
    now apply escape_char_no_newline in Hc.
  - simpl in H. intuition lia.
Qed.

Lemma written_text `{PyLib} (results : list FilteringParallel.linedct) :
  List.concat (written results)
  = List.concat (map (fun line => py_encode_basestring line ++ newline)
                     (passed results)).
Proof.
  induction results as [|r rs IH]; [reflexivity|].
  destruct r as [line|]; [|exact IH].
  change (written (FilteringParallel.Pass line :: rs))
    with ([py_encode_basestring line; newline] ++ written rs).
  change (passed (FilteringParallel.Pass line :: rs))
    with (line :: passed rs).
  rewrite concat_app, IH. cbn [map List.concat].
  now rewrite app_nil_r, <- app_assoc.
Qed.

Lemma encoded_lines_count (lines : list str) :
  count_occ Z.eq_dec
    (List.concat (map (fun line => py_encode_basestring line ++ newline)
                      lines)) 10%Z
  = List.length lines.
Proof.
  induction lines as [|line lines IH]; [reflexivity|].
  cbn [map List.concat List.length]. rewrite !count_occ_app, IH.
  pose proof (@py_encode_basestring_no_newline line) as Hno.
  apply (count_occ_not_In Z.eq_dec) in Hno. rewrite Hno.
  reflexivity.
Qed.

(** X10: the parallel writer puts each kept line on one output line: the
    file holds, for every passed result in order of arrival, the quoted
    line followed by a line feed, and the quoted line itself holds no line
    feed; so the file has as many line feeds as records were kept. *)
Theorem parallel_output_one_line_per_record `{PyLib}
        (results : list FilteringParallel.linedct) :
  exists st,
    FilteringParallel.writer_loop initial (map Ok results) = Ok st
    /\ file_text st
       = List.concat (map (fun line => py_encode_basestring line ++ newline)
                          (passed results))
    /\ (forall line, ~ In 10%Z (py_encode_basestring line))
    /\ count_occ Z.eq_dec (file_text st) 10%Z = List.length (passed results).
Proof.
  rewrite writer_loop_from. eexists. split; [reflexivity|].
  unfold file_text. simpl. rewrite written_text.
  split; [reflexivity|]. split.
  - apply py_encode_basestring_no_newline.
  - apply encoded_lines_count.
Qed.





(* ================================================================== *)
(** ** Further properties of the matcher and of the keyword tables *)

Lemma any_in_list_incl `{PyLib} (keywords tokens tokens' : list str) :
  incl tokens tokens' ->
  any_in_list keywords tokens = true ->
  any_in_list keywords tokens' = true.
Proof.
  intros Hincl. unfold any_in_list. rewrite !existsb_exists.
  intros [k [Hk Hin]]. exists k. split; [assumption|].
  apply list_contains_In. apply Hincl. now apply list_contains_In.
Qed.

Lemma any_in_list_more_keywords `{PyLib}
      (keywords keywords' tokens : list str) :
  incl keywords keywords' ->
  any_in_list keywords tokens = true ->
  any_in_list keywords' tokens = true.
Proof.
  intros Hincl. unfold any_in_list. rewrite !existsb_exists.
  intros [k [Hk Hin]]. exists k. split; [now apply Hincl | assumption].
Qed.

(** X12: the token-list test looks only at which tokens occur: a record
    kept on its tokens stays kept when tokens are added, repeated or
    reordered, in both scripts. *)
Theorem token_test_is_monotone `{PyLib} (toks toks' : list str) :
  incl toks toks' ->
  (Filtering.token_test (map str_lower toks) = true ->
   Filtering.token_test (map str_lower toks') = true)
  /\ (FilteringParallel.token_test (map str_lower toks) = true ->
      FilteringParallel.token_test (map str_lower toks') = true).
Proof.
  intros Hincl.
  assert (Hmap : incl (map str_lower toks) (map str_lower toks'))
    by (now apply incl_map).
  unfold Filtering.token_test, FilteringParallel.token_test.
  split; intros Ht; apply andb_prop in Ht; destruct Ht as [HA HB];
    apply andb_true_intro; split;
    eapply any_in_list_incl; eassumption.
Qed.

Lemma token_test_is_monotone_witness :
  @Filtering.token_test demo_lib
     (map ascii_lower [u "Islam"; u "x"; u "PKK"; u "PKK"]) = true.
Proof.
  destruct (@token_test_is_monotone demo_lib [u "PKK"; u "Islam"]
              [u "Islam"; u "x"; u "PKK"; u "PKK"]) as [Hseq _].
  - intros t [<- | [<- | []]]; simpl; tauto.
  - apply Hseq. reflexivity.
Defined.

Lemma incl_by_computation (l1 l2 : list str) :
  forallb (fun k => list_contains k l2) l1 = true -> incl l1 l2.
Proof.
  intros Hall k Hk. rewrite forallb_forall in Hall.
  apply list_contains_In. now apply Hall.
Qed.

(** X13: the keyword tables of the two scripts.  Every Set-B keyword of
    [filtering.py] is a Set-B keyword of [filtering_parallel.py], and every
    Set-A keyword is a Set-A keyword there except ["kandil"], which the
    parallel table holds only fused into ["terörkandil"].  So tokens that
    match Set B in the sequential filter match it in the parallel one, and
    tokens that match Set A do unless the match rests on ["kandil"]. *)
Theorem parallel_tables_extend_sequential_but_kandil `{PyLib}
        (tokens : list str) :
  incl Filtering.islam_keywords FilteringParallel.islam_keywords
  /\ incl (filter (fun k => negb (str_eqb k (u "kandil")))
                  Filtering.kurdish_keywords)
          FilteringParallel.kurdish_keywords
  /\ In (u "kandil") Filtering.kurdish_keywords
  /\ ~ In (u "kandil") FilteringParallel.kurdish_keywords
  /\ In (u "terörkandil") FilteringParallel.kurdish_keywords
  /\ (any_in_list Filtering.islam_keywords tokens = true ->
      any_in_list FilteringParallel.islam_keywords tokens = true)
  /\ (any_in_list (filter (fun k => negb (str_eqb k (u "kandil")))
                          Filtering.kurdish_keywords) tokens = true ->
      any_in_list FilteringParallel.kurdish_keywords tokens = true).
Proof.
  assert (HB : incl Filtering.islam_keywords
                    FilteringParallel.islam_keywords)
    by (apply incl_by_computation; vm_compute; reflexivity).
  assert (HA : incl (filter (fun k => negb (str_eqb k (u "kandil")))
                            Filtering.kurdish_keywords)
                    FilteringParallel.kurdish_keywords)
    by (apply incl_by_computation; vm_compute; reflexivity).
  split; [exact HB|]. split; [exact HA|]. split; [|split; [|split]].
  - apply list_contains_In. vm_compute. reflexivity.
  - intros Hin. apply list_contains_In in Hin. vm_compute in Hin.
    discriminate Hin.
  - apply list_contains_In. vm_compute. reflexivity.
  - split.
    + now apply any_in_list_more_keywords.
    + now apply any_in_list_more_keywords.
Qed.

Lemma parallel_tables_extend_sequential_but_kandil_witness :
  @any_in_list demo_lib FilteringParallel.islam_keywords [u "molla"] = true
  /\ @Filtering.token_test demo_lib [u "kandil"; u "molla"] = true
  /\ @FilteringParallel.token_test demo_lib [u "kandil"; u "molla"] = false.
Proof.
  destruct (@parallel_tables_extend_sequential_but_kandil demo_lib
              [u "molla"]) as [_ [_ [_ [_ [_ [HB _]]]]]].
  split; [apply HB; reflexivity|]. split; reflexivity.
Defined.
